(** * Verification of the dataset builder

    A shallow embedding of [src/data_preparation/dataset_builder.py]
    (class [DatasetBuilder]) and the properties its specification states.

    Conventions of the embedding:
    - Python [str] is a sequence of characters (code points).  It is held
      as [string], its UTF-8 text, which is also how a file name is stored;
      [Str.chars] reads the characters of a text.  Paths are cut at the
      bytes of [/] and [.], which are characters of their own in UTF-8.
    - Python [int] is [Z]; [None] in an optional position is [None].
    - The state of the machine (files, directories, standard output) is a
      record [world] threaded through a state-and-exception monad [M].
    - The third-party libraries (pympi, pydub, librosa, soundfile, json,
      scikit-learn), the directory listing of the operating system and the
      Unicode tables of the interpreter outside ASCII are not part of the
      repository: they are the fields of a class [Libs]. *)

From stdpp Require Import gmap strings list fin_maps pretty.
From Stdlib Require Import ZArith QArith Qround Ascii String Lia.

Local Open Scope string_scope.
Local Open Scope Z_scope.

(** ** Characters and strings *)

Module Str.

Definition code (c : ascii) : N := N_of_ascii c.

Definition between (lo hi : N) (c : ascii) : bool :=
  ((lo <=? code c) && (code c <=? hi))%N.

Definition in_range (lo hi : N) (c : N) : bool := ((lo <=? c) && (c <=? hi))%N.

(** [a-zA-Z], a set of code points *)
Definition is_alpha (c : N) : bool := in_range 97 122 c || in_range 65 90 c.

Fixpoint all (p : ascii -> bool) (s : string) : bool :=
  match s with
  | EmptyString => true
  | String c s' => p c && all p s'
  end.

(** A byte that is not ASCII. *)
Definition high (b : ascii) : bool := (128 <=? code b)%N.

(** A continuation byte of UTF-8, [10xxxxxx]. *)
Definition is_cont (b : ascii) : bool := between 128 191 b.

(** The number of continuation bytes that the lead byte [b0] announces,
    and the bits of the code point that it holds. *)
Definition seq_len (b0 : ascii) : nat :=
  if between 194 223 b0 then 1
  else if between 224 239 b0 then 2
  else if between 240 244 b0 then 3
  else 0.

Definition lead_bits (b0 : ascii) : N :=
  (if between 194 223 b0 then code b0 - 192
   else if between 224 239 b0 then code b0 - 224
   else code b0 - 240)%N.

(** Reads [n] continuation bytes into the code point [acc]: the code point,
    the bytes read, the text after them. *)
Fixpoint take_conts (n : nat) (s : string) (acc : N) : option (N * string * string) :=
  match n with
  | O => Some (acc, EmptyString, s)
  | S n' =>
      match s with
      | String b s' =>
          if is_cont b then
            match take_conts n' s' (acc * 64 + (code b - 128))%N with
            | Some (c, t, r) => Some (c, String b t, r)
            | None => None
            end
          else None
      | EmptyString => None
      end
  end.

(** No overlong form, no surrogate, nothing above U+10FFFF. *)
Definition well_formed (len : nat) (c : N) : bool :=
  match len with
  | 1%nat => (128 <=? c)%N
  | 2%nat => (2048 <=? c)%N && negb (in_range 55296 57343 c)
  | 3%nat => in_range 65536 1114111 c
  | _ => false
  end.

(** The first character of a text: its code point, the bytes that spell it,
    and the text after it.  A byte that starts no well-formed sequence is the
    character U+DC00 + byte, as the [surrogateescape] handler gives it to
    [os.listdir]. *)
Definition uncons (s : string) : option (N * string * string) :=
  match s with
  | EmptyString => None
  | String b0 s1 =>
      if (code b0 <? 128)%N then Some (code b0, String b0 EmptyString, s1)
      else
        let escaped := Some ((56320 + code b0)%N, String b0 EmptyString, s1) in
        match take_conts (seq_len b0) s1 (lead_bits b0) with
        | Some (c, t, r) =>
            if well_formed (seq_len b0) c then Some (c, String b0 t, r) else escaped
        | None => escaped
        end
  end.

(** The characters of a text, each with the bytes that spell it; [n] bounds
    their number. *)
Fixpoint chars_from (n : nat) (s : string) : list (N * string) :=
  match n with
  | O => []
  | S n' =>
      match uncons s with
      | Some (c, t, r) => (c, t) :: chars_from n' r
      | None => []
      end
  end.

Definition chars (s : string) : list (N * string) := chars_from (String.length s) s.

(** The text that a sequence of characters spells. *)
Definition text (cs : list (N * string)) : string :=
  foldr (fun c s => c.2 +:+ s) EmptyString cs.

(** A character is spelled by its one byte when it is ASCII, and by bytes
    that are not ASCII otherwise. *)
Definition spelled (c : N * string) : Prop :=
  ((c.1 < 128)%N /\ c.2 = String (ascii_of_N c.1) EmptyString) \/
  ((128 <= c.1)%N /\ c.2 <> EmptyString /\ all high c.2 = true).

(** [s.startswith(c)] and [s.endswith(c)] for a one-character [c] *)
Definition startswith (c : ascii) (s : string) : bool :=
  match s with
  | String c' _ => bool_decide (c' = c)
  | EmptyString => false
  end.

Fixpoint endswith (c : ascii) (s : string) : bool :=
  match s with
  | EmptyString => false
  | String c' EmptyString => bool_decide (c' = c)
  | String _ s' => endswith c s'
  end.

(** [s.rfind(c)]: the last index of [c] in [s], [-1] when there is none. *)
Fixpoint rfind (c : ascii) (s : string) : Z :=
  match s with
  | EmptyString => -1
  | String c' s' =>
      let i := rfind c s' in
      if 0 <=? i then i + 1
      else if bool_decide (c' = c) then 0 else -1
  end.

(** [s[:i]] and [s[i:]] for [0 <= i] *)
Definition take (i : Z) (s : string) : string := substring 0 (Z.to_nat i) s.
Definition drop (i : Z) (s : string) : string :=
  substring (Z.to_nat i) (String.length s - Z.to_nat i) s.

(** [s[i:i+1]] *)
Definition at_ (i : Z) (s : string) : string := substring (Z.to_nat i) 1 s.

End Str.

(** ** Regular expressions, as the [re] module runs them

    A backtracking matcher in continuation-passing style, over the
    characters of the subject.  Only the constructs of the pattern of
    [_parse_root_id_and_session] are present: character sets, literals, [+]
    on a set, concatenation and capture groups; the sets and literals are
    those of a pattern written in ASCII. *)

Module Re.

(** A character of the subject: its code point and the bytes that spell it. *)
Abbreviation char := (N * string)%type.

Inductive regex : Type :=
| Set_ (p : N -> bool)
| Lit (c : ascii)
| Plus (p : N -> bool)
| Cat (r1 r2 : regex)
| Group (n : nat) (r : regex).

(** A match object: the text of the numbered groups. *)
Abbreviation match_object := (gmap nat string).

Definition group (m : match_object) (n : nat) : string := default "" (m !! n).

(** The characters that [re.IGNORECASE] takes [c] for, on a [str] pattern:
    [c] itself, the other case of an ASCII letter, and, for the four
    characters outside ASCII whose case variants are ASCII letters, those
    letters: U+0130 and U+0131 stand for [i], U+017F for [s], U+212A for
    [k]. *)
Definition case_variants (c : N) : list N :=
  (if Str.in_range 65 90 c then [c; c + 32]
   else if Str.in_range 97 122 c then [c; c - 32]
   else if (c =? 304) || (c =? 305) then [c; 105; 73]
   else if c =? 383 then [c; 115; 83]
   else if c =? 8490 then [c; 107; 75]
   else [c])%N.

(** With [re.IGNORECASE] a character is in a set when one of its case
    variants is, and a literal matches up to case. *)
Definition in_set (ignorecase : bool) (p : N -> bool) (c : N) : bool :=
  if ignorecase then existsb p (case_variants c) else p c.

Definition lit_eq (ignorecase : bool) (a : ascii) (c : N) : bool :=
  in_set ignorecase (N.eqb (Str.code a)) c.

(** The text consumed between the position [s] and the later position [s']. *)
Definition consumed (s s' : list char) : string :=
  Str.text (take (List.length s - List.length s') s).

Section Exec.
Context {X : Type} (ignorecase : bool).

(** Greedy repetition: take as many characters as possible, give back
    one at a time while the continuation fails. *)
Fixpoint star (p : N -> bool) (s : list char)
    (k : list char -> option X) : option X :=
  match s with
  | c :: s' =>
      if in_set ignorecase p c.1 then
        match star p s' k with
        | Some x => Some x
        | None => k s
        end
      else k s
  | [] => k s
  end.

Fixpoint exec (r : regex) (s : list char) (g : match_object)
    (k : list char -> match_object -> option X) : option X :=
  match r with
  | Set_ p =>
      match s with
      | c :: s' => if in_set ignorecase p c.1 then k s' g else None
      | [] => None
      end
  | Lit a =>
      match s with
      | c :: s' => if lit_eq ignorecase a c.1 then k s' g else None
      | [] => None
      end
  | Plus p =>
      match s with
      | c :: s' =>
          if in_set ignorecase p c.1 then star p s' (fun s'' => k s'' g) else None
      | [] => None
      end
  | Cat r1 r2 => exec r1 s g (fun s' g' => exec r2 s' g' k)
  | Group n r => exec r s g (fun s' g' => k s' (<[n := consumed s s']> g'))
  end.
End Exec.

(** The pattern at the start of a sequence of characters, and the pattern
    on the whole of it. *)
Definition match_chars (pattern : regex) (s : list char) (ignorecase : bool)
    : option match_object :=
  exec ignorecase pattern s ∅ (fun _ g => Some g).

Definition fullmatch_chars (pattern : regex) (s : list char) (ignorecase : bool)
    : option match_object :=
  exec ignorecase pattern s ∅
    (fun s' g => match s' with [] => Some g | _ => None end).

(** [re.match(pattern, string, flags)]: the pattern must match at the
    start of the string; the match may end anywhere. *)
Definition match_ (pattern : regex) (s : string) (ignorecase : bool)
    : option match_object :=
  match_chars pattern (Str.chars s) ignorecase.

(** A match of the whole string: what the pattern does between the
    anchors [^] and [$].  ([$] also accepts one newline after the match; a
    string that matches with it is a string that matches here, followed by
    the newline.) *)
Definition fullmatch (pattern : regex) (s : string) (ignorecase : bool)
    : option match_object :=
  fullmatch_chars pattern (Str.chars s) ignorecase.

(** The longest run of characters of the set [p] at the start of [s], and
    the characters after it. *)
Fixpoint span (p : N -> bool) (s : list char) : list char * list char :=
  match s with
  | c :: s' => if p c.1 then let '(a, b) := span p s' in (c :: a, b) else ([], s)
  | [] => ([], [])
  end.

End Re.

Definition IGNORECASE : bool := true.

(** [x != c] *)
Definition is_not (c : ascii) (x : ascii) : bool := negb (bool_decide (x = c)).

(** [s.endswith(suffix)] *)
Definition has_suffix (suffix s : string) : bool :=
  bool_decide
    (substring (String.length s - String.length suffix) (String.length suffix) s = suffix).

(** ** Paths: [os.path.join] and [os.path.splitext] of the POSIX flavour *)

Definition os_path_join (a b : string) : string :=
  if Str.startswith "/" b then b
  else if bool_decide (a = "") || Str.endswith "/" a then a +:+ b
  else a +:+ "/" +:+ b.

(** The loop of [genericpath._splitext] that skips the leading dots of the
    last component; [n] bounds the iterations left, [dotIndex - filenameIndex]. *)
Fixpoint splitext_loop (n : nat) (p : string) (filenameIndex dotIndex : Z)
    : option (string * string) :=
  match n with
  | O => None
  | S n' =>
      if bool_decide (Str.at_ filenameIndex p ≠ ".")
      then Some (Str.take dotIndex p, Str.drop dotIndex p)
      else splitext_loop n' p (filenameIndex + 1) dotIndex
  end.

Definition os_path_splitext (p : string) : string * string :=
  let sepIndex := Str.rfind "/" p in
  let dotIndex := Str.rfind "." p in
  let whole := (p, "") in
  if sepIndex <? dotIndex then
    let filenameIndex := sepIndex + 1 in
    default whole
      (splitext_loop (Z.to_nat (dotIndex - filenameIndex)) p filenameIndex dotIndex)
  else whole.

(** ** Values, exceptions, records *)

(** The Python values [build_dataset] can return. *)
Inductive value : Type :=
| None_
| Int (z : Z)
| Tuple (a b : value).

Inductive exn : Type :=
| FileNotFoundError (path : string)
| FileExistsError (path : string)
| LibraryError (library : string) (message : string).

(** One entry of the dataset, the dictionary built in the inner loop. *)
Record Segment (float : Type) : Type := {
  path : string;
  transcription : string;
  waveform : option (list float);
  sampling_rate : Z;
  duration : Z;
  conversation_id : option string
}.
Arguments path {float} _.
Arguments transcription {float} _.
Arguments waveform {float} _.
Arguments sampling_rate {float} _.
Arguments duration {float} _.
Arguments conversation_id {float} _.

(** The collaborators outside the repository.  A pure function of the bytes
    it reads; [inl e] is the exception [e] raised. *)
Class Libs : Type := {
  float : Type;
  (** the bytes of a file *)
  content : Type;
  (** [pympi.Elan.Eaf]: the parsed annotation file and its two queries *)
  Eaf : Type;
  Elan_Eaf : content -> exn + Eaf;
  get_tier_ids_for_linguistic_type : Eaf -> string -> list string;
  get_annotation_data_for_tier : Eaf -> string -> list (Z * Z * string);
  (** [pydub.AudioSegment]: decoding, [audio[start:end]], encoding *)
  AudioSegment : Type;
  from_wav : content -> exn + AudioSegment;
  getitem : AudioSegment -> Z -> Z -> exn + AudioSegment;
  export : AudioSegment -> exn + content;
  (** [librosa.load(_, sr=None)] and [librosa.resample] *)
  librosa_load : content -> exn + (list float * Z);
  librosa_resample : list float -> Z -> Z -> exn + list float;
  (** the encoder of [soundfile.write(_, data, rate, format='wav')] *)
  sf_write : list float -> Z -> exn + content;
  (** [json.dump(data, _, ensure_ascii=False, indent=2)] *)
  json_dump : list (Segment float) -> exn + content;
  (** [sklearn.model_selection.train_test_split(data, test_size, random_state)] *)
  train_test_split :
    list (Segment float) -> float -> Z -> exn + (list (Segment float) * list (Segment float));
  (** what [os.listdir] answers on a file system, in the order it answers *)
  listdir : gmap string content -> gset string -> string -> exn + list string;
  (** why opening a path for writing fails on a file system, if it does *)
  open_w : gmap string content -> gset string -> string -> option exn;
  (** the Unicode tables of the interpreter for a character outside ASCII:
      [c.isdecimal()], which is what [\d] matches, and the UTF-8 text of
      [c.upper()] *)
  isdecimal : N -> bool;
  unicode_upper : N -> string
}.

Record DatasetBuilder `{Libs} : Type := {
  eaf_dir : string;
  wav_dir : string;
  seg_dir : string;
  output_dir : string;
  test_size : float;
  split : bool
}.

(** ** The splitter *)

Module Sklearn.

(** [ceil(test_size * n_samples)], the size of the test set. *)
Definition n_test_of (n_samples : nat) (test_size : Q) : nat :=
  Z.to_nat (Qceiling (test_size * inject_Z (Z.of_nat n_samples))).

(** Modelled from the spec: the splitter, "a pure function: partition a list
    by ratio and seed", of which the repository holds no code.  The sizes
    and the refusal of an empty train set are those of the documentation of
    scikit-learn's [train_test_split] for a fraction [test_size] and no
    [train_size]: the test set has [ceil(test_size * n_samples)] records and
    the train set the others.  The seeded shuffle of [n] positions is
    [permutation random_state n]; the test set is read at its first
    positions, the train set at the following ones.  The fraction is the
    rational it denotes, and the arithmetic on it is exact. *)
Definition train_test_split {A} (permutation : Z -> nat -> list nat)
    (data : list A) (test_size : Q) (random_state : Z) : exn + (list A * list A) :=
  let n_samples := List.length data in
  if Qle_bool test_size 0 || Qle_bool 1 test_size then
    inl (LibraryError "sklearn" "test_size should be in the (0, 1) range")
  else
    let n_test := n_test_of n_samples test_size in
    let n_train := (n_samples - n_test)%nat in
    if bool_decide (n_train = 0%nat) then
      inl (LibraryError "sklearn" "the resulting train set will be empty")
    else
      let p := permutation random_state n_samples in
      let ind_test := take n_test p in
      let ind_train := take n_train (drop n_test p) in
      match mapM (λ i, data !! i) ind_train, mapM (λ i, data !! i) ind_test with
      | Some train, Some test => inr (train, test)
      | _, _ => inl (LibraryError "sklearn" "index out of range")
      end.

End Sklearn.

(** ** The machine: files, directories, standard output *)

Section Program.
Context `{L : Libs}.

Record world : Type := {
  files : gmap string content;
  dirs : gset string;
  stdout : list string
}.

Inductive outcome (A : Type) : Type :=
| Return (a : A) (w : world)
| Raise (e : exn) (w : world).
Global Arguments Return {A} a w.
Global Arguments Raise {A} e w.

Definition M (A : Type) : Type := world -> outcome A.

Global Instance M_ret : MRet M := λ A a w, Return a w.
Global Instance M_bind : MBind M := λ A B f m w,
  match m w with
  | Return a w' => f a w'
  | Raise e w' => Raise e w'
  end.

Definition raise {A} (e : exn) : M A := λ w, Raise e w.

Definition lift {A} (r : exn + A) : M A :=
  match r with
  | inl e => raise e
  | inr a => mret a
  end.

(** The loop [for x in xs: acc = body acc x]. *)
Fixpoint for_ {A B} (xs : list A) (body : B -> A -> M B) (acc : B) : M B :=
  match xs with
  | [] => mret acc
  | x :: xs' => acc' ← body acc x; for_ xs' body acc'
  end.

Definition enumerate {A} (xs : list A) : list (nat * A) :=
  zip (seq 0 (List.length xs)) xs.

Definition print (line : string) : M unit := λ w,
  Return () {| files := files w; dirs := dirs w; stdout := (stdout w ++ [line])%list |}.

(** [open(p)] and reading the whole file.  A path that is not a file is
    taken as missing: the exception for a directory is not told apart. *)
Definition read (p : string) : M content := λ w,
  match files w !! p with
  | Some c => Return c w
  | None => Raise (FileNotFoundError p) w
  end.

Definition write (p : string) (c : content) : M unit := λ w,
  match open_w (files w) (dirs w) p with
  | Some e => Raise e w
  | None =>
      Return () {| files := <[p := c]> (files w); dirs := dirs w; stdout := stdout w |}
  end.

Definition os_remove (p : string) : M unit := λ w,
  match files w !! p with
  | Some _ =>
      Return () {| files := delete p (files w); dirs := dirs w; stdout := stdout w |}
  | None => Raise (FileNotFoundError p) w
  end.

Definition os_path_exists (p : string) : M bool := λ w,
  Return (bool_decide (is_Some (files w !! p) ∨ p ∈ dirs w)) w.

(** [os.makedirs(p, exist_ok=True)] for a path whose parent directories
    exist: it raises when [p] is a file and adds the directory [p] otherwise.
    The creation of missing parents and the refusal of an empty path or of a
    parent that is a file are not modelled. *)
Definition os_makedirs (p : string) : M unit := λ w,
  match files w !! p with
  | Some _ => Raise (FileExistsError p) w
  | None =>
      Return () {| files := files w; dirs := dirs w ∪ {[p]}; stdout := stdout w |}
  end.

Definition os_listdir (p : string) : M (list string) := λ w,
  lift (listdir (files w) (dirs w) p) w.

(** [str(x)] inside an f-string *)
Definition fmt (o : option string) : string := default "None" o.

(** ** The pattern of the resolver *)

(** [\d]: a decimal digit, in ASCII or outside it. *)
Definition is_decimal (c : N) : bool :=
  if (c <? 128)%N then Str.in_range 48 57 c else isdecimal c.

(** [r"([a-zA-Z]+-\d+)-(\d)\.eaf"] *)
Definition pattern : Re.regex :=
  Re.Cat (Re.Group 1 (Re.Cat (Re.Plus Str.is_alpha)
                        (Re.Cat (Re.Lit "-") (Re.Plus is_decimal))))
    (Re.Cat (Re.Lit "-")
       (Re.Cat (Re.Group 2 (Re.Set_ is_decimal))
          (Re.Cat (Re.Lit ".")
             (Re.Cat (Re.Lit "e") (Re.Cat (Re.Lit "a") (Re.Lit "f")))))).

(** [s.upper()], character by character. *)
Definition upper_char (c : Re.char) : string :=
  if (c.1 <? 128)%N
  then String (ascii_of_N (if Str.in_range 97 122 c.1 then c.1 - 32 else c.1)) ""
  else unicode_upper c.1.

Definition upper (s : string) : string :=
  foldr (fun c u => upper_char c +:+ u) "" (Str.chars s).

(** The language of the pattern in words: letters, a hyphen, digits, a
    hyphen, one digit, and the extension up to case.  [g1] and [g2] are the
    two captured groups. *)
Definition identity_shape (s : list Re.char) (g1 g2 : string) : Prop :=
  ∃ (letters digits : list Re.char) (dash1 dash2 d e1 e2 e3 e4 : Re.char),
    s = (letters ++ dash1 :: digits ++ dash2 :: d :: [e1; e2; e3; e4])%list ∧
    letters ≠ [] ∧ Forall (λ c, Re.in_set true Str.is_alpha c.1 = true) letters ∧
    digits ≠ [] ∧ Forall (λ c, Re.in_set true is_decimal c.1 = true) digits ∧
    Re.lit_eq true "-" dash1.1 = true ∧ Re.lit_eq true "-" dash2.1 = true ∧
    Re.in_set true is_decimal d.1 = true ∧
    Re.lit_eq true "." e1.1 = true ∧ Re.lit_eq true "e" e2.1 = true ∧
    Re.lit_eq true "a" e3.1 = true ∧ Re.lit_eq true "f" e4.1 = true ∧
    g1 = Str.text (letters ++ dash1 :: digits)%list ∧ g2 = d.2.

(** The pattern read from left to right without backtracking: the two
    groups and the characters after the match. *)
Definition parse_id (s : list Re.char) : option (string * string * list Re.char) :=
  match Re.span (Re.in_set true Str.is_alpha) s with
  | ((_ :: _) as ls, c1 :: r2) =>
      if Re.lit_eq true "-" c1.1 then
        match Re.span (Re.in_set true is_decimal) r2 with
        | ((_ :: _) as ds, c2 :: d :: e1 :: e2 :: e3 :: e4 :: rest) =>
            if Re.lit_eq true "-" c2.1 && Re.in_set true is_decimal d.1
               && Re.lit_eq true "." e1.1 && Re.lit_eq true "e" e2.1
               && Re.lit_eq true "a" e3.1 && Re.lit_eq true "f" e4.1
            then Some (Str.text (ls ++ c1 :: ds)%list, d.2, rest)
            else None
        | _ => None
        end
      else None
  | _ => None
  end.

(** ** The methods of [DatasetBuilder] *)

Definition __init__ (eaf_dir wav_dir seg_dir output_dir : string)
    (split : bool) (test_size : float) : DatasetBuilder :=
  {| eaf_dir := eaf_dir; wav_dir := wav_dir; seg_dir := seg_dir;
     output_dir := output_dir; test_size := test_size; split := split |}.

Definition _parse_root_id_and_session (filename : string)
    : M (option string * option string) :=
  match Re.match_ pattern filename IGNORECASE with
  | Some m =>
      let root_id := upper (Re.group m 1) in
      let session := Re.group m 2 in
      mret (Some root_id, Some session)
  | None =>
      print ("Warning: " +:+ filename +:+ " root id and session not found");;
      mret (None, None)
  end.

(** [json.dump] into the file opened for writing.  The model serialises
    and then opens the file; the code opens the file, which empties it, and
    then serialises into it: the order of the two exceptions and the file
    that a failed serialisation leaves are not modelled. *)
Definition _write_json (data : list (Segment float)) (file_path : string) : M unit :=
  c ← lift (json_dump data);
  write file_path c.

Definition parse_eaf_file (eaf_path : string) : M (list (Z * Z * string)) :=
  c ← read eaf_path;
  eaf ← lift (Elan_Eaf c);
  mret (flat_map
          (λ tier, (λ '(start_time, end_time, text), (start_time, end_time, text))
                     <$> get_annotation_data_for_tier eaf tier)
          (get_tier_ids_for_linguistic_type eaf "verbatim")).

Definition target_sampling_rate : Z := 16000.

Definition slice_and_process_audio (wav_path seg_path : string)
    (start_time end_time : Z) : M (option (list float)) :=
  c ← read wav_path;
  audio ← lift (from_wav c);
  segment ← lift (getitem audio start_time end_time);
  c' ← lift (export segment);
  write seg_path c';;
  c'' ← read seg_path;
  '(audio_data, sampling_rate) ← lift (librosa_load c'');
  if bool_decide (List.length audio_data = 0%nat) then
    print ("Deleting " +:+ seg_path +:+ " due to zero-length input signal");;
    os_remove seg_path;;
    mret None
  else
    audio_data ← (if bool_decide (sampling_rate ≠ target_sampling_rate)
                  then lift (librosa_resample audio_data sampling_rate target_sampling_rate)
                  else mret audio_data);
    c3 ← lift (sf_write audio_data target_sampling_rate);
    write seg_path c3;;
    mret (Some audio_data).

(** The body of the loop over the annotations of one file. *)
Definition per_span (wav_path seg_folder : string) (root_id : option string)
    (data : list (Segment float)) (annotation : Z * Z * string)
    : M (list (Segment float)) :=
  let '(start_time, end_time, text) := annotation in
  let seg_path :=
    os_path_join seg_folder (pretty start_time +:+ "-" +:+ pretty end_time +:+ ".wav") in
  waveform ← slice_and_process_audio wav_path seg_path start_time end_time;
  mret (data ++ [{| path := seg_path;
                    transcription := text;
                    waveform := waveform;
                    sampling_rate := 16000;
                    duration := end_time - start_time;
                    conversation_id := root_id |}])%list.

(** The body of the loop over the entries of [eaf_dir]. *)
Definition per_file (self : DatasetBuilder) (data : list (Segment float))
    (entry : nat * string) : M (list (Segment float)) :=
  let '(idx, eaf_file) := entry in
  '(root_id, session) ← _parse_root_id_and_session eaf_file;
  let wav_filename := fmt root_id +:+ "-" +:+ fmt session +:+ ".wav" in
  let wav_path := os_path_join (wav_dir self) wav_filename in
  found ← os_path_exists wav_path;
  data ← (if found : bool then
            let eaf_path := os_path_join (eaf_dir self) eaf_file in
            annotations ← parse_eaf_file eaf_path;
            let seg_folder :=
              os_path_join (seg_dir self) (os_path_splitext eaf_file).1 in
            os_makedirs seg_folder;;
            for_ annotations (per_span wav_path seg_folder root_id) data
          else
            print ("Warning: Audio file '" +:+ wav_filename +:+ "' not found.");;
            mret data);
  (if bool_decide ((Z.of_nat idx + 1) mod 10 = 0)
   then print (pretty (Z.of_nat idx + 1) +:+ " files built into dataset")
   else mret ());;
  mret data.

(** The loop of [build_dataset], up to the first diagnostics. *)
Definition accumulate (self : DatasetBuilder) : M (list (Segment float)) :=
  os_makedirs (seg_dir self);;
  listing ← os_listdir (eaf_dir self);
  for_ (enumerate listing) (per_file self) [].

(** What [build_dataset] does with the accumulated records. *)
Definition finalize (self : DatasetBuilder) (data : list (Segment float)) : M value :=
  wavs ← os_listdir (wav_dir self);
  print ("wav folder size: " +:+ pretty (Z.of_nat (List.length wavs)));;
  eafs ← os_listdir (eaf_dir self);
  print ("eaf folder size: " +:+ pretty (Z.of_nat (List.length eafs)));;
  print ("Dataset size: " +:+ pretty (Z.of_nat (List.length data)));;
  if bool_decide (List.length data = 0%nat) then
    print "Error: The dataset is empty. Please check your input directories and files.";;
    mret (Tuple None_ None_)
  else
    '(train_data, test_data) ← lift (train_test_split data (test_size self) 42);
    _write_json train_data (os_path_join (output_dir self) "train.json");;
    _write_json test_data (os_path_join (output_dir self) "test.json");;
    print ("Dataset has been written into " +:+ output_dir self);;
    mret None_.

Definition build_dataset (self : DatasetBuilder) : M value :=
  data ← accumulate self;
  finalize self data.

(** ** Observing a run *)

(** The identity the resolver computes for a file name. *)
Definition identity (filename : string) : option string * option string :=
  match Re.match_ pattern filename IGNORECASE with
  | Some m => (Some (upper (Re.group m 1)), Some (Re.group m 2))
  | None => (None, None)
  end.

(** The names [per_file] derives from a file name. *)
Definition wav_path_of (self : DatasetBuilder) (eaf_file : string) : string :=
  os_path_join (wav_dir self)
    (fmt (identity eaf_file).1 +:+ "-" +:+ fmt (identity eaf_file).2 +:+ ".wav").

Definition eaf_path_of (self : DatasetBuilder) (eaf_file : string) : string :=
  os_path_join (eaf_dir self) eaf_file.

Definition seg_folder_of (self : DatasetBuilder) (eaf_file : string) : string :=
  os_path_join (seg_dir self) (os_path_splitext eaf_file).1.

Definition seg_path_of (seg_folder : string) (start_time end_time : Z) : string :=
  os_path_join seg_folder (pretty start_time +:+ "-" +:+ pretty end_time +:+ ".wav").

(** [os.path.exists(p)] as a proposition *)
Definition exists_ (w : world) (p : string) : Prop :=
  is_Some (files w !! p) ∨ p ∈ dirs w.

(** Two worlds with the same files and directories. *)
Definition same_fs (w w' : world) : Prop :=
  files w' = files w ∧ dirs w' = dirs w.

Definition returned {A} (o : outcome A) : option A :=
  match o with
  | Return a _ => Some a
  | Raise _ _ => None
  end.

Definition raised {A} (o : outcome A) : option exn :=
  match o with
  | Return _ _ => None
  | Raise e _ => Some e
  end.

Definition final {A} (o : outcome A) : world :=
  match o with
  | Return _ w => w
  | Raise _ w => w
  end.

(** The record appended for one span. *)
Definition record_of (seg_folder : string) (root_id : option string)
    (annotation : Z * Z * string) (r : Segment float) : Prop :=
  let '(start_time, end_time, text) := annotation in
  path r = seg_path_of seg_folder start_time end_time /\
  transcription r = text /\
  sampling_rate r = 16000 /\
  duration r = end_time - start_time /\
  conversation_id r = root_id.

(** The steps behind a call of the slicer that returns. *)
Definition sliced (wav_path seg_path : string) (start_time end_time : Z)
    (w w' : world) (r : option (list float)) : Prop :=
  exists (c : content) (audio segment : AudioSegment) (c' : content)
         (audio_data : list float) (sampling_rate : Z),
    files w !! wav_path = Some c /\
    from_wav c = inr audio /\
    getitem audio start_time end_time = inr segment /\
    export segment = inr c' /\
    librosa_load c' = inr (audio_data, sampling_rate) /\
    (r = None <-> List.length audio_data = 0%nat) /\
    (r = None -> files w' !! seg_path = None) /\
    (r <> None ->
     exists (samples : list float) (c3 : content),
       r = Some samples /\
       (sampling_rate = 16000 -> samples = audio_data) /\
       (sampling_rate <> 16000 ->
        librosa_resample audio_data sampling_rate 16000 = inr samples) /\
       sf_write samples 16000 = inr c3 /\
       files w' !! seg_path = Some c3).

(** The world in which the loop over the spans of [eaf_file] starts, when
    [per_file] is entered in [w] and the folder of the file is created. *)
Definition span_loop_world (self : DatasetBuilder) (eaf_file : string) (w : world)
    : world :=
  {| files := files w;
     dirs := dirs w ∪ {[seg_folder_of self eaf_file]};
     stdout := stdout (final (_parse_root_id_and_session eaf_file w)) |}.

(** ** What a computation may touch *)

(** [m] changes files only at the paths in [S], whether it returns or raises. *)
Definition writes_only {A} (S : string -> Prop) (m : M A) : Prop :=
  forall (w : world) (p : string),
    ~ S p -> files (final (m w)) !! p = files w !! p.

(** [m] removes no directory, whether it returns or raises. *)
Definition keeps_dirs {A} (m : M A) : Prop :=
  forall w : world, dirs w ⊆ dirs (final (m w)).

(** [m] creates directories only at the paths in [D], whether it returns or
    raises. *)
Definition makes_only_dirs {A} (D : string -> Prop) (m : M A) : Prop :=
  forall (w : world) (p : string),
    p ∈ dirs (final (m w)) -> p ∈ dirs w \/ D p.

(** The three footprints of a computation, together. *)
Definition footprint {A} (S D : string -> Prop) (m : M A) : Prop :=
  writes_only S m /\ keeps_dirs m /\ makes_only_dirs D m.

(** The paths at which [build_dataset] writes a segment. *)
Definition segment_path (self : DatasetBuilder) (p : string) : Prop :=
  exists (eaf_file : string) (start_time end_time : Z),
    p = seg_path_of (seg_folder_of self eaf_file) start_time end_time.

(** The lines [per_file] prints for an entry it skips. *)
Definition resolver_warning (filename : string) : list string :=
  match Re.match_ pattern filename IGNORECASE with
  | Some _ => []
  | None => ["Warning: " +:+ filename +:+ " root id and session not found"]
  end.

Definition wav_filename_of (eaf_file : string) : string :=
  fmt (identity eaf_file).1 +:+ "-" +:+ fmt (identity eaf_file).2 +:+ ".wav".

Definition progress_line (idx : nat) : list string :=
  if bool_decide ((Z.of_nat idx + 1) mod 10 = 0)
  then [pretty (Z.of_nat idx + 1) +:+ " files built into dataset"]
  else [].

Definition skipped_lines (eaf_file : string) (idx : nat) : list string :=
  (resolver_warning eaf_file
   ++ ["Warning: Audio file '" +:+ wav_filename_of eaf_file +:+ "' not found."]
   ++ progress_line idx)%list.

End Program.

(** ** A small stand-in for the collaborators, to run the program on

    Files are tagged values, samples and fractions are rationals, a
    recording is its rate and its samples, the listing of a directory is
    read off the paths below it, and the splitter takes the test records
    from the end of the data. *)

Module Toy.

Inductive toy_content : Type :=
| EafFile (tiers : list (string * string * list (Z * Z * string)))
| WavFile (rate : Z) (samples : list Q)
| JsonFile (records : list (Segment Q))
| Junk.

Definition toy_Elan_Eaf (c : toy_content)
    : exn + list (string * string * list (Z * Z * string)) :=
  match c with
  | EafFile tiers => inr tiers
  | _ => inl (LibraryError "pympi" "not an annotation file")
  end.

Definition toy_tier_ids (eaf : list (string * string * list (Z * Z * string)))
    (ling_type : string) : list string :=
  (λ t, t.1.1) <$> filter (λ t, t.1.2 = ling_type) eaf.

Definition toy_annotation_data (eaf : list (string * string * list (Z * Z * string)))
    (tier : string) : list (Z * Z * string) :=
  flat_map (λ t, t.2) (filter (λ t, t.1.1 = tier) eaf).

Definition toy_from_wav (c : toy_content) : exn + (Z * list Q) :=
  match c with
  | WavFile rate samples => inr (rate, samples)
  | _ => inl (LibraryError "pydub" "not a recording")
  end.

(** samples from [start] to [end_] milliseconds *)
Definition toy_getitem (audio : Z * list Q) (start end_ : Z) : exn + (Z * list Q) :=
  let frame ms := Z.to_nat (ms * audio.1 / 1000) in
  inr (audio.1, take (frame end_ - frame start) (drop (frame start) audio.2)).

Definition toy_load (c : toy_content) : exn + (list Q * Z) :=
  match c with
  | WavFile rate samples => inr (samples, rate)
  | _ => inl (LibraryError "librosa" "not a recording")
  end.

(** every sample repeated or dropped to reach the target rate *)
Definition toy_resample (data : list Q) (orig_sr target_sr : Z) : exn + list Q :=
  if bool_decide (0 < orig_sr) then
    inr ((λ i, default 0%Q (data !! Z.to_nat (Z.of_nat i * orig_sr / target_sr)))
           <$> seq 0 (Z.to_nat (Z.of_nat (List.length data) * target_sr / orig_sr)))
  else inl (LibraryError "librosa" "bad rate").

Definition toy_split (data : list (Segment Q)) (test_size : Q) (random_state : Z)
    : exn + (list (Segment Q) * list (Segment Q)) :=
  let n := List.length data in
  let n_test := Z.to_nat (Qceiling (test_size * inject_Z (Z.of_nat n))) in
  let n_train := (n - n_test)%nat in
  if bool_decide (n_train = 0%nat)
  then inl (LibraryError "sklearn" "the resulting train set will be empty")
  else inr (take n_train data, drop n_train data).

Fixpoint strip_prefix (pre s : string) : option string :=
  match pre, s with
  | EmptyString, _ => Some s
  | String a pre', String b s' => if bool_decide (a = b) then strip_prefix pre' s' else None
  | String _ _, EmptyString => None
  end.

Definition entry_of (dir p : string) : option string :=
  match strip_prefix (dir +:+ "/") p with
  | Some name =>
      if bool_decide (name ≠ "" ∧ Str.rfind "/" name = -1) then Some name else None
  | None => None
  end.

Definition toy_listdir (fs : gmap string toy_content) (ds : gset string) (dir : string)
    : exn + list string :=
  if bool_decide (dir ∈ ds)
  then inr (omap (entry_of dir) ((map_to_list fs).*1 ++ elements ds)%list)
  else inl (FileNotFoundError dir).

(** a file is created in an existing directory or in the current one *)
Definition toy_open_w (fs : gmap string toy_content) (ds : gset string) (p : string)
    : option exn :=
  let i := Str.rfind "/" p in
  if bool_decide (i = -1 ∨ Str.take i p ∈ ds) then None
  else Some (FileNotFoundError p).

(** The UTF-8 text of a character. *)
Definition utf8 (c : N) : string :=
  let byte (n : N) := String (ascii_of_N n) "" in
  (if c <? 128 then byte c
   else if c <? 2048 then byte (192 + c / 64) +:+ byte (128 + c mod 64)
   else if Str.in_range 56448 56575 c then byte (c - 56320)
   else if c <? 65536 then
     byte (224 + c / 4096) +:+ byte (128 + (c / 64) mod 64) +:+ byte (128 + c mod 64)
   else
     byte (240 + c / 262144) +:+ byte (128 + (c / 4096) mod 64)
     +:+ byte (128 + (c / 64) mod 64) +:+ byte (128 + c mod 64))%N.

(** The decimal digits outside ASCII, category Nd of Unicode 14.0, as ranges
    of code points. *)
Definition nd_ranges : list (N * N) :=
  [(1632, 1641); (1776, 1785); (1984, 1993); (2406, 2415); (2534, 2543); (2662, 2671);
   (2790, 2799); (2918, 2927); (3046, 3055); (3174, 3183); (3302, 3311); (3430, 3439);
   (3558, 3567); (3664, 3673); (3792, 3801); (3872, 3881); (4160, 4169); (4240, 4249);
   (6112, 6121); (6160, 6169); (6470, 6479); (6608, 6617); (6784, 6793); (6800, 6809);
   (6992, 7001); (7088, 7097); (7232, 7241); (7248, 7257); (42528, 42537);
   (43216, 43225); (43264, 43273); (43472, 43481); (43504, 43513); (43600, 43609);
   (44016, 44025); (65296, 65305); (66720, 66729); (68912, 68921); (69734, 69743);
   (69872, 69881); (69942, 69951); (70096, 70105); (70384, 70393); (70736, 70745);
   (70864, 70873); (71248, 71257); (71360, 71369); (71472, 71481); (71904, 71913);
   (72016, 72025); (72784, 72793); (73040, 73049); (73120, 73129); (92768, 92777);
   (92864, 92873); (93008, 93017); (120782, 120831); (123200, 123209);
   (123632, 123641); (125264, 125273); (130032, 130041)]%N.

Definition toy_isdecimal (c : N) : bool :=
  existsb (fun r => Str.in_range r.1 r.2 c) nd_ranges.

(** The upper case of Latin-1 and of the dotless i and the long s; other
    characters are left as they are. *)
Definition toy_upper (c : N) : string :=
  (if c =? 223 then "SS"
   else if c =? 255 then utf8 376
   else if c =? 181 then utf8 924
   else if Str.in_range 224 254 c && negb (c =? 247) then utf8 (c - 32)
   else if c =? 305 then "I"
   else if c =? 383 then "S"
   else utf8 c)%N.

Definition libs : Libs := {|
  float := Q;
  content := toy_content;
  Eaf := list (string * string * list (Z * Z * string));
  Elan_Eaf := toy_Elan_Eaf;
  get_tier_ids_for_linguistic_type := toy_tier_ids;
  get_annotation_data_for_tier := toy_annotation_data;
  AudioSegment := Z * list Q;
  from_wav := toy_from_wav;
  getitem := toy_getitem;
  export := λ segment, inr (WavFile segment.1 segment.2);
  librosa_load := toy_load;
  librosa_resample := toy_resample;
  sf_write := λ data rate, inr (WavFile rate data);
  json_dump := λ data, inr (JsonFile data);
  train_test_split := toy_split;
  listdir := toy_listdir;
  open_w := toy_open_w;
  isdecimal := toy_isdecimal;
  unicode_upper := toy_upper
|}.

Definition ramp (n : nat) : list Q := (λ i, inject_Z (Z.of_nat i)) <$> seq 0 n.

(** One annotation file with a "verbatim" tier of three spans, the last
    one empty, and a tier of another type; its recording, 30 ms at 1 kHz. *)
Definition spk_eaf : toy_content :=
  EafFile [("A", "verbatim", [(0, 10, "hello"); (10, 25, "world"); (25, 25, "")]);
           ("B", "notes", [(0, 30, "ignored")])].

Definition corpus : @world libs := {|
  files := {[ "eaf/SPK-001-1.eaf" := spk_eaf;
              "wav/SPK-001-1.wav" := WavFile 1000 (ramp 30) ]};
  dirs := {[ "eaf"; "wav"; "dataset" ]};
  stdout := []
|}.

Definition builder : @DatasetBuilder libs :=
  __init__ (L := libs) "eaf" "wav" "seg" "dataset" true (1 # 10)%Q.

(** An annotation file whose name is not an identity, next to a recording
    named ["None-None.wav"]. *)
Definition stray : @world libs := {|
  files := {[ "eaf/notes.eaf" := EafFile [("A", "verbatim", [(0, 10, "hi")])];
              "wav/None-None.wav" := WavFile 1000 (ramp 30) ]};
  dirs := {[ "eaf"; "wav"; "dataset" ]};
  stdout := []
|}.

(** The corpus without its directory of recordings. *)
Definition no_wav_dir : @world libs := {|
  files := {[ "eaf/SPK-001-1.eaf" := spk_eaf ]};
  dirs := {[ "eaf"; "dataset" ]};
  stdout := []
|}.

(** An empty corpus. *)
Definition empty_corpus : @world libs := {|
  files := ∅;
  dirs := {[ "eaf"; "wav"; "dataset" ]};
  stdout := []
|}.

(** A corpus whose annotation file is not one, and a corpus whose
    recording is not one. *)
Definition bad_eaf : @world libs := {|
  files := {[ "eaf/SPK-002-1.eaf" := Junk;
              "wav/SPK-002-1.wav" := WavFile 1000 (ramp 30) ]};
  dirs := {[ "eaf"; "wav"; "dataset" ]};
  stdout := []
|}.

Definition bad_wav : @world libs := {|
  files := {[ "eaf/SPK-002-1.eaf" := spk_eaf;
              "wav/SPK-002-1.wav" := Junk ]};
  dirs := {[ "eaf"; "wav"; "dataset" ]};
  stdout := []
|}.

(** The corpus where [output_dir] does not exist. *)
Definition no_output_dir : @world libs := {|
  files := {[ "eaf/SPK-001-1.eaf" := spk_eaf;
              "wav/SPK-001-1.wav" := WavFile 1000 (ramp 30) ]};
  dirs := {[ "eaf"; "wav" ]};
  stdout := []
|}.

(** Two corpora in which [seg_dir] exists already, as an earlier run leaves
    it: one with its recording under a lower-case name, one without
    [eaf_dir]. *)
Definition second_run : @world libs := {|
  files := {[ "eaf/SPK-001-1.eaf" := spk_eaf;
              "wav/spk-001-1.wav" := WavFile 1000 (ramp 30) ]};
  dirs := {[ "eaf"; "wav"; "seg"; "dataset" ]};
  stdout := []
|}.

Definition second_run_no_eaf_dir : @world libs := {|
  files := {[ "wav/SPK-001-1.wav" := WavFile 1000 (ramp 30) ]};
  dirs := {[ "wav"; "seg"; "dataset" ]};
  stdout := []
|}.

(** The first span of the corpus, 10 ms at 1 kHz, brought to 16000 Hz. *)
Definition first_slice : list Q :=
  match toy_resample (ramp 10) 1000 16000 with
  | inr samples => samples
  | inl _ => []
  end.

(** The records of the corpus. *)
Definition corpus_data : list (Segment Q) :=
  default [] (returned (accumulate (L := libs) builder corpus)).

End Toy.


(** * Properties *)

#[local] Arguments String.append !_ _ / : simpl nomatch.
#[local] Arguments Re.in_set : simpl never.
#[local] Arguments Re.lit_eq : simpl never.

(** ** Strings *)

Module StrFacts.
Import Str.

Lemma length_app (a b : string) :
  String.length (a +:+ b) = (String.length a + String.length b)%nat.
Proof. induction a as [|c a IH]; simpl; [reflexivity | now rewrite IH]. Qed.

Lemma substring_whole (a : string) : substring 0 (String.length a) a = a.
Proof. induction a as [|c a IH]; simpl; [reflexivity | now rewrite IH]. Qed.

Lemma substring_prefix (a b : string) : substring 0 (String.length a) (a +:+ b) = a.
Proof.
  induction a as [|c a IH]; simpl.
  - destruct b; reflexivity.
  - now rewrite IH.
Qed.

Lemma app_assoc (a b c : string) : (a +:+ b) +:+ c = a +:+ (b +:+ c).
Proof. induction a as [|x a IH]; simpl; [reflexivity | now rewrite IH]. Qed.

Lemma app_nil_r (a : string) : a +:+ "" = a.
Proof. induction a as [|c a IH]; simpl; [reflexivity | now rewrite IH]. Qed.

Lemma all_app (p : ascii -> bool) (a b : string) :
  all p (a +:+ b) = all p a && all p b.
Proof.
  induction a as [|x a IH]; cbn [String.append all]; [reflexivity|].
  now rewrite IH, andb_assoc.
Qed.

Lemma all_impl (p q : ascii -> bool) (s : string) :
  (forall c, p c = true -> q c = true) -> all p s = true -> all q s = true.
Proof.
  intros Hpq. induction s as [|c s IH]; simpl; [reflexivity|].
  intros H. apply andb_prop in H as [Hc Hs]. now rewrite (Hpq c Hc), IH.
Qed.

(** *** The characters of a text *)

Lemma text_app (a b : list (N * string)) : text (a ++ b) = text a +:+ text b.
Proof.
  induction a as [|c a IH]; cbn [app text foldr]; [reflexivity|].
  fold (text (a ++ b)). fold (text a). now rewrite IH, app_assoc.
Qed.

Lemma take_conts_spec (n : nat) (s : string) (acc c : N) (t r : string) :
  take_conts n s acc = Some (c, t, r) -> s = t +:+ r /\ all high t = true.
Proof.
  revert s acc c t r. induction n as [|n IH]; intros s acc c t r; cbn [take_conts].
  - intros [= <- <- <-]. split; reflexivity.
  - destruct s as [|b s]; [discriminate|].
    destruct (is_cont b) eqn:Hb; [|discriminate].
    destruct (take_conts n s _) as [[[c' t'] r']|] eqn:E; [|discriminate].
    intros [= <- <- <-]. apply IH in E as [-> Ht]. split; [reflexivity|].
    cbn [all]. rewrite Ht, andb_true_r.
    unfold is_cont, between in Hb. apply andb_prop in Hb as [Hb _]. exact Hb.
Qed.

Lemma well_formed_high (len : nat) (c : N) : well_formed len c = true -> (128 <= c)%N.
Proof.
  destruct len as [|[|[|[|len]]]]; cbn [well_formed]; try discriminate.
  - apply N.leb_le.
  - intros H. apply andb_prop in H as [H _]. apply N.leb_le in H. lia.
  - unfold in_range. intros H. apply andb_prop in H as [H _]. apply N.leb_le in H. lia.
Qed.

(** The first character of a text is a prefix of it, and it is spelled
    by one ASCII byte or by bytes that are not ASCII. *)
Lemma uncons_spec (s : string) (c : N) (t r : string) :
  uncons s = Some (c, t, r) -> s = t +:+ r /\ spelled (c, t).
Proof.
  destruct s as [|b0 s1]; [discriminate|]. cbn [uncons].
  destruct (code b0 <? 128)%N eqn:Hb0.
  - intros [= <- <- <-]. split; [reflexivity|]. left. cbn [fst snd].
    split; [now apply N.ltb_lt|]. unfold code. now rewrite ascii_N_embedding.
  - apply N.ltb_ge in Hb0.
    assert (Hesc : forall c t r,
               Some ((56320 + code b0)%N, String b0 "", s1) = Some (c, t, r) ->
               String b0 s1 = t +:+ r /\ spelled (c, t)).
    { intros c0 t0 r0 [= <- <- <-]. split; [reflexivity|]. right. cbn [fst snd all].
      split; [lia|]. split; [discriminate|].
      unfold high. rewrite andb_true_r. now apply N.leb_le. }
    destruct (take_conts (seq_len b0) s1 (lead_bits b0)) as [[[c' t'] r']|] eqn:E;
      [|apply Hesc].
    destruct (well_formed (seq_len b0) c') eqn:Hwf; [|apply Hesc].
    intros [= <- <- <-]. apply take_conts_spec in E as [-> Ht].
    split; [reflexivity|]. right. cbn [fst snd all].
    split; [now apply well_formed_high in Hwf|]. split; [discriminate|].
    rewrite Ht, andb_true_r. unfold high. now apply N.leb_le.
Qed.

Lemma spelled_nonempty (c : N * string) : spelled c -> (1 <= String.length c.2)%nat.
Proof.
  intros [[_ ->] | (_ & Hne & _)]; [cbn; lia|].
  destruct c.2; [done | cbn; lia].
Qed.

Lemma chars_from_spec (n : nat) (s : string) :
  (String.length s <= n)%nat ->
  text (chars_from n s) = s /\ Forall spelled (chars_from n s).
Proof.
  revert s. induction n as [|n IH]; intros s Hn.
  - destruct s; [|cbn in Hn; lia]. split; [reflexivity | constructor].
  - cbn [chars_from]. destruct (uncons s) as [[[c t] r]|] eqn:E.
    + apply uncons_spec in E as [-> Hsp].
      pose proof (spelled_nonempty _ Hsp) as Hlen. cbn [snd] in Hlen.
      rewrite length_app in Hn.
      destruct (IH r) as [Ht Hall]; [lia|].
      split; [|now constructor].
      cbn [text foldr snd]. fold (text (chars_from n r)). now rewrite Ht.
    + destruct s as [|b0 s1]; [split; [reflexivity | constructor]|].
      exfalso. cbn [uncons] in E. destruct (code b0 <? 128)%N; [discriminate|].
      destruct (take_conts (seq_len b0) s1 (lead_bits b0)) as [[[c1 t1] r1]|];
        [destruct (well_formed (seq_len b0) c1)|]; discriminate.
Qed.

(** A text is what its characters spell. *)
Lemma text_chars (s : string) : text (chars s) = s.
Proof. now apply chars_from_spec. Qed.

Lemma chars_spelled (s : string) : Forall spelled (chars s).
Proof. now apply chars_from_spec. Qed.

End StrFacts.

(** ** The matcher on the pattern of the resolver *)

Module ReFacts.

(** Reads the boolean tests on code points in the hypotheses as
    propositions. *)
Ltac tests :=
  repeat match goal with
         | H : (_ && _) = true |- _ => apply andb_prop in H as [? ?]
         | H : (_ || _) = false |- _ => apply orb_false_elim in H as [? ?]
         | H : (_ && _) = false |- _ => apply andb_false_iff in H as [?|?]
         | H : (_ || _) = true |- _ => apply orb_prop in H as [?|?]
         | H : negb _ = true |- _ => apply negb_true_iff in H
         | H : negb _ = false |- _ => apply negb_false_iff in H
         | H : (_ <=? _)%N = true |- _ => apply N.leb_le in H
         | H : (_ <=? _)%N = false |- _ => apply N.leb_gt in H
         | H : (_ <? _)%N = true |- _ => apply N.ltb_lt in H
         | H : (_ <? _)%N = false |- _ => apply N.ltb_ge in H
         | H : (_ =? _)%N = true |- _ => apply N.eqb_eq in H
         | H : (_ =? _)%N = false |- _ => apply N.eqb_neq in H
         end.

(** Decides a goal on the case variants of a code point by the cases of
    [Re.case_variants]. *)
Ltac variants :=
  unfold Re.lit_eq, Re.in_set, Re.case_variants, Str.is_alpha, Str.in_range in *;
  repeat match goal with
         | |- context [if ?b then _ else _] => destruct b eqn:?
         | H : context [if ?b then _ else _] |- _ => destruct b eqn:?
         end;
  cbn [existsb orb] in *; tests;
  repeat match goal with
         | |- context [N.eqb ?a ?b] => destruct (N.eqb_spec a b)
         end;
  cbn [orb andb negb] in *;
  first [reflexivity | discriminate | exfalso; lia | lia].

Section Facts.
Context `{L : Libs}.
Implicit Types (s : list Re.char).

Lemma consumed_app (a b : list Re.char) : Re.consumed (a ++ b) b = Str.text a.
Proof.
  unfold Re.consumed. rewrite length_app, Nat.add_sub. now rewrite take_app_length.
Qed.

Lemma lit_dash (c : N) : Re.lit_eq true "-" c = (c =? 45)%N.
Proof. unfold Re.lit_eq. change (Str.code "-") with 45%N. variants. Qed.

Lemma lit_dot (c : N) : Re.lit_eq true "." c = (c =? 46)%N.
Proof. unfold Re.lit_eq. change (Str.code ".") with 46%N. variants. Qed.

(** A letter of the pattern matches itself and its upper case. *)
Lemma lit_letter (a : ascii) (c : N) :
  Str.in_range 97 122 (Str.code a) = true ->
  (Str.code a =? 105)%N || (Str.code a =? 115)%N || (Str.code a =? 107)%N = false ->
  Re.lit_eq true a c = (c =? Str.code a)%N || (c =? Str.code a - 32)%N.
Proof. unfold Re.lit_eq. generalize (Str.code a). intros n Hn Hisk. variants. Qed.

Lemma alpha_not_dash (c : N) :
  Re.in_set true Str.is_alpha c = true -> Re.lit_eq true "-" c = false.
Proof.
  intros H. rewrite lit_dash. destruct (N.eqb_spec c 45) as [->|]; [|reflexivity].
  vm_compute in H. discriminate H.
Qed.

Lemma decimal_not_dash (c : N) :
  Re.in_set true is_decimal c = true -> Re.lit_eq true "-" c = false.
Proof.
  intros H. rewrite lit_dash. destruct (N.eqb_spec c 45) as [->|]; [|reflexivity].
  vm_compute in H. discriminate H.
Qed.

(** Backtracking never succeeds when the continuation refuses every
    position that starts inside the set: the repetition is the longest run. *)
Lemma star_span {X} (p : N -> bool) s (k : list Re.char -> option X) :
  (forall c s', Re.in_set true p c.1 = true -> k (c :: s') = None) ->
  Re.star true p s k = k (Re.span (Re.in_set true p) s).2.
Proof.
  intros Hk. induction s as [|c s IH]; cbn [Re.star Re.span]; [reflexivity|].
  destruct (Re.in_set true p c.1) eqn:Hc; [|reflexivity].
  rewrite IH. destruct (Re.span (Re.in_set true p) s) as [a b]; cbn [snd].
  destruct (k b) eqn:Hb; [reflexivity|]. rewrite Hk; [reflexivity | exact Hc].
Qed.

Lemma span_app (p : N -> bool) s : ((Re.span p s).1 ++ (Re.span p s).2)%list = s.
Proof.
  induction s as [|c s IH]; cbn [Re.span]; [reflexivity|].
  destruct (p c.1); [|reflexivity].
  destruct (Re.span p s) as [a b]; cbn [fst snd app] in *. now rewrite IH.
Qed.

Lemma span_all (p : N -> bool) s : Forall (fun c => p c.1 = true) (Re.span p s).1.
Proof.
  induction s as [|c s IH]; cbn [Re.span]; [constructor|].
  destruct (p c.1) eqn:Hc; [|constructor].
  destruct (Re.span p s) as [a b]; cbn [fst] in *. now constructor.
Qed.

(** A run of characters of the set followed by a character outside it is
    split right after the run. *)
Lemma span_stop (p : N -> bool) (a : list Re.char) (c : Re.char) (b : list Re.char) :
  Forall (fun c => p c.1 = true) a -> p c.1 = false ->
  Re.span p (a ++ c :: b) = (a, c :: b).
Proof.
  intros Ha Hc. induction Ha as [|x a Hx _ IH]; cbn [app Re.span].
  - now rewrite Hc.
  - now rewrite Hx, IH.
Qed.

Lemma exec_plus {X} (p : N -> bool) s g (k : list Re.char -> Re.match_object -> option X) :
  (forall c s', Re.in_set true p c.1 = true -> k (c :: s') g = None) ->
  Re.exec true (Re.Plus p) s g k =
    match Re.span (Re.in_set true p) s with
    | (_ :: _, r) => k r g
    | ([], _) => None
    end.
Proof.
  intros Hk. destruct s as [|c s]; cbn [Re.exec Re.span]; [reflexivity|].
  destruct (Re.in_set true p c.1) eqn:Hc; [|reflexivity].
  rewrite star_span by exact Hk.
  now destruct (Re.span (Re.in_set true p) s).
Qed.

Lemma exec_cat {X} (r1 r2 : Re.regex) s g (k : list Re.char -> Re.match_object -> option X) :
  Re.exec true (Re.Cat r1 r2) s g k
  = Re.exec true r1 s g (fun s' g' => Re.exec true r2 s' g' k).
Proof. reflexivity. Qed.

Lemma exec_group {X} n r s g (k : list Re.char -> Re.match_object -> option X) :
  Re.exec true (Re.Group n r) s g k
  = Re.exec true r s g (fun s' g' => k s' (<[n := Re.consumed s s']> g')).
Proof. reflexivity. Qed.

Lemma exec_lit {X} a s g (k : list Re.char -> Re.match_object -> option X) :
  Re.exec true (Re.Lit a) s g k
  = match s with
    | c :: s' => if Re.lit_eq true a c.1 then k s' g else None
    | [] => None
    end.
Proof. reflexivity. Qed.

Lemma exec_set {X} p s g (k : list Re.char -> Re.match_object -> option X) :
  Re.exec true (Re.Set_ p) s g k
  = match s with
    | c :: s' => if Re.in_set true p c.1 then k s' g else None
    | [] => None
    end.
Proof. reflexivity. Qed.

Lemma exec_pattern {X} s (k : list Re.char -> Re.match_object -> option X) :
  Re.exec true pattern s ∅ k =
    match parse_id s with
    | Some (g1, g2, rest) => k rest (<[2%nat := g2]> (<[1%nat := g1]> ∅))
    | None => None
    end.
Proof.
  unfold pattern, parse_id.
  rewrite exec_cat, exec_group, exec_cat.
  rewrite exec_plus.
  2:{ intros c s' Hc. rewrite exec_cat, exec_lit.
      now rewrite (alpha_not_dash _ Hc). }
  pose proof (span_app (Re.in_set true Str.is_alpha) s) as Hs.
  destruct (Re.span (Re.in_set true Str.is_alpha) s) as [ls r1]; cbn [fst snd] in Hs.
  destruct ls as [|l ls]; [reflexivity|].
  rewrite exec_cat, exec_lit.
  destruct r1 as [|c1 r2]; [reflexivity|].
  destruct (Re.lit_eq true "-" c1.1) eqn:Hc1; [|reflexivity].
  rewrite exec_plus.
  2:{ intros c s' Hc. rewrite exec_cat, exec_lit.
      now rewrite (decimal_not_dash _ Hc). }
  pose proof (span_app (Re.in_set true is_decimal) r2) as Hr2.
  destruct (Re.span (Re.in_set true is_decimal) r2) as [ds r3]; cbn [fst snd] in Hr2.
  destruct ds as [|d0 ds]; [reflexivity|].
  assert (Hg1 : Re.consumed s r3 = Str.text ((l :: ls) ++ c1 :: d0 :: ds)).
  { rewrite <- Hs, <- Hr2.
    replace ((l :: ls) ++ c1 :: (d0 :: ds) ++ r3)%list
      with (((l :: ls) ++ c1 :: d0 :: ds) ++ r3)%list
      by (rewrite <- !app_assoc; reflexivity).
    apply consumed_app. }
  rewrite Hg1. clear Hg1.
  rewrite exec_cat, exec_lit.
  destruct r3 as [|c2 r4]; [reflexivity|].
  destruct (Re.lit_eq true "-" c2.1) eqn:Hc2;
    [|now destruct r4 as [|? [|? [|? [|? [|? ?]]]]]].
  rewrite exec_cat, exec_group, exec_set.
  destruct r4 as [|d r5]; [reflexivity|].
  destruct (Re.in_set true is_decimal d.1) eqn:Hd;
    [|now destruct r5 as [|? [|? [|? [|? ?]]]]].
  assert (Hg2 : Re.consumed (d :: r5) r5 = d.2).
  { etrans; [exact (consumed_app [d] r5)|]. cbn [Str.text foldr].
    apply StrFacts.app_nil_r. }
  rewrite Hg2. clear Hg2.
  rewrite exec_cat, exec_lit.
  destruct r5 as [|e1 r5]; [reflexivity|]. rewrite exec_cat, exec_lit.
  destruct r5 as [|e2 r5]; [now destruct (Re.lit_eq true "." e1.1)|].
  rewrite exec_cat, exec_lit.
  destruct r5 as [|e3 r5];
    [now destruct (Re.lit_eq true "." e1.1), (Re.lit_eq true "e" e2.1)|].
  rewrite exec_lit.
  destruct r5 as [|e4 rest];
    [now destruct (Re.lit_eq true "." e1.1), (Re.lit_eq true "e" e2.1),
           (Re.lit_eq true "a" e3.1)|].
  destruct (Re.lit_eq true "." e1.1), (Re.lit_eq true "e" e2.1),
    (Re.lit_eq true "a" e3.1), (Re.lit_eq true "f" e4.1); cbn [andb]; reflexivity.
Qed.

Lemma parse_id_shape s (g1 g2 : string) (rest : list Re.char) :
  parse_id s = Some (g1, g2, rest) <->
  exists p, s = (p ++ rest)%list /\ identity_shape p g1 g2.
Proof.
  unfold parse_id. split.
  - pose proof (span_app (Re.in_set true Str.is_alpha) s) as Hs.
    pose proof (span_all (Re.in_set true Str.is_alpha) s) as Ha.
    destruct (Re.span (Re.in_set true Str.is_alpha) s) as [ls r1]; cbn [fst snd] in Hs, Ha.
    destruct ls as [|l ls]; [discriminate|].
    destruct r1 as [|c1 r2]; [discriminate|].
    destruct (Re.lit_eq true "-" c1.1) eqn:Hc1; [|discriminate].
    pose proof (span_app (Re.in_set true is_decimal) r2) as Hr2.
    pose proof (span_all (Re.in_set true is_decimal) r2) as Hd.
    destruct (Re.span (Re.in_set true is_decimal) r2) as [ds r3]; cbn [fst snd] in Hr2, Hd.
    destruct ds as [|d0 ds]; [discriminate|].
    destruct r3 as [|c2 [|d [|e1 [|e2 [|e3 [|e4 rest']]]]]]; try discriminate.
    destruct (Re.lit_eq true "-" c2.1) eqn:Hc2; [|discriminate].
    destruct (Re.in_set true is_decimal d.1) eqn:Hdd; [|discriminate].
    destruct (Re.lit_eq true "." e1.1) eqn:He1; [|discriminate].
    destruct (Re.lit_eq true "e" e2.1) eqn:He2; [|discriminate].
    destruct (Re.lit_eq true "a" e3.1) eqn:He3; [|discriminate].
    destruct (Re.lit_eq true "f" e4.1) eqn:He4; [|discriminate].
    intros [= <- <- <-].
    exists ((l :: ls) ++ c1 :: (d0 :: ds) ++ c2 :: d :: [e1; e2; e3; e4])%list.
    split.
    + rewrite <- Hs, <- Hr2. rewrite <- !app_assoc. cbn [app].
      rewrite <- !app_assoc. reflexivity.
    + exists (l :: ls), (d0 :: ds), c1, c2, d, e1, e2, e3, e4.
      repeat split; try done.
  - intros (p & -> & letters & digits & dash1 & dash2 & d & e1 & e2 & e3 & e4
            & -> & Hl & Hal & Hd & Had & Hd1 & Hd2 & Hdd & He1 & He2 & He3 & He4 & -> & ->).
    rewrite <- !app_assoc. cbn [app]. rewrite <- !app_assoc. cbn [app].
    rewrite (span_stop (Re.in_set true Str.is_alpha) letters dash1); [|exact Hal|].
    2:{ destruct (Re.in_set true Str.is_alpha dash1.1) eqn:E; [|reflexivity].
        apply alpha_not_dash in E. congruence. }
    destruct letters as [|l ls]; [done|].
    rewrite Hd1.
    rewrite (span_stop (Re.in_set true is_decimal) digits dash2); [|exact Had|].
    2:{ destruct (Re.in_set true is_decimal dash2.1) eqn:E; [|reflexivity].
        apply decimal_not_dash in E. congruence. }
    destruct digits as [|d0 ds]; [done|].
    rewrite Hd2, Hdd, He1, He2, He3, He4. reflexivity.
Qed.

(** What [re.match] finds is a prefix of the shape of the pattern. *)
Lemma match_shape s :
  Re.match_chars pattern s IGNORECASE =
    match parse_id s with
    | Some (g1, g2, _) => Some (<[2%nat := g2]> (<[1%nat := g1]> ∅))
    | None => None
    end.
Proof.
  unfold Re.match_chars, IGNORECASE. rewrite exec_pattern.
  now destruct (parse_id s) as [[[? ?] ?]|].
Qed.

Lemma fullmatch_shape s :
  Re.fullmatch_chars pattern s IGNORECASE =
    match parse_id s with
    | Some (g1, g2, []) => Some (<[2%nat := g2]> (<[1%nat := g1]> ∅))
    | _ => None
    end.
Proof.
  unfold Re.fullmatch_chars, IGNORECASE. rewrite exec_pattern.
  now destruct (parse_id s) as [[[? ?] ?]|].
Qed.

(** The anchored pattern accepts exactly the sequences of the shape. *)
Lemma fullmatch_iff s (m : Re.match_object) :
  Re.fullmatch_chars pattern s IGNORECASE = Some m <->
  exists g1 g2, identity_shape s g1 g2 /\ m = <[2%nat := g2]> (<[1%nat := g1]> ∅).
Proof.
  rewrite fullmatch_shape. split.
  - destruct (parse_id s) as [[[g1 g2] rest]|] eqn:Hp; [|discriminate].
    destruct rest; [|discriminate]. intros [= <-].
    apply parse_id_shape in Hp as (p & -> & Hs).
    exists g1, g2. rewrite app_nil_r. done.
  - intros (g1 & g2 & Hs & ->).
    assert (Hp : parse_id s = Some (g1, g2, [])).
    { apply parse_id_shape. exists s. now rewrite app_nil_r. }
    now rewrite Hp.
Qed.

Lemma group_1 (g1 g2 : string) :
  Re.group (<[2%nat := g2]> (<[1%nat := g1]> ∅)) 1 = g1.
Proof. unfold Re.group. now rewrite lookup_insert_ne, lookup_insert_eq. Qed.

Lemma group_2 (g1 g2 : string) :
  Re.group (<[2%nat := g2]> (<[1%nat := g1]> ∅)) 2 = g2.
Proof. unfold Re.group. now rewrite lookup_insert_eq. Qed.

End Facts.
End ReFacts.

(** ** The Identity Resolver *)

Section Resolver.
Context `{L : Libs}.
Import ReFacts.

(** The resolver returns on every file name, and what it returns is
    decided by [re.match] alone. *)
Lemma resolver_returns (filename : string) (w : world) :
  returned (_parse_root_id_and_session filename w) = Some (identity filename).
Proof.
  unfold _parse_root_id_and_session, identity.
  now destruct (Re.match_ pattern filename IGNORECASE).
Qed.

(** The only effect of the resolver is its warning. *)
Lemma resolver_run (filename : string) (w : world) :
  exists w', _parse_root_id_and_session filename w = Return (identity filename) w' /\
             same_fs w w'.
Proof.
  unfold _parse_root_id_and_session, identity, same_fs.
  destruct (Re.match_ pattern filename IGNORECASE); eexists; split; try reflexivity; done.
Qed.

End Resolver.

(** C3, as stated, fails: the pattern is anchored at the start only.  The
    file name ["ABC-123-4.eaf.bak"] does not match the anchored pattern, and
    the resolver returns the identity [("ABC-123", "4")] for it. *)
Lemma resolver_not_anchored :
  Re.fullmatch (pattern (L := Toy.libs)) "ABC-123-4.eaf.bak" IGNORECASE = None /\
  returned (_parse_root_id_and_session "ABC-123-4.eaf.bak" Toy.corpus)
  = Some (Some "ABC-123", Some "4").
Proof. split; vm_compute; reflexivity. Qed.

(** C3, amended: the resolver returns (first group upper-cased, second group
    verbatim) exactly when a prefix of the file name, a sequence of
    characters, matches the anchored case-insensitive pattern, and the null
    identity when no prefix does; in particular a file name that matches the
    anchored pattern as a whole resolves to its groups, and the three file
    names of the specification resolve as it says. *)
Theorem resolver_matches_prefix `{L : Libs} (w : world) :
  (forall filename : string,
     (forall (p rest : list Re.char) (m : Re.match_object),
        Str.chars filename = (p ++ rest)%list ->
        Re.fullmatch_chars pattern p IGNORECASE = Some m ->
        returned (_parse_root_id_and_session filename w)
        = Some (Some (upper (Re.group m 1)), Some (Re.group m 2))) /\
     ((forall p rest : list Re.char,
         Str.chars filename = (p ++ rest)%list ->
         Re.fullmatch_chars pattern p IGNORECASE = None) ->
      returned (_parse_root_id_and_session filename w) = Some (None, None)) /\
     (forall m : Re.match_object,
        Re.fullmatch pattern filename IGNORECASE = Some m ->
        returned (_parse_root_id_and_session filename w)
        = Some (Some (upper (Re.group m 1)), Some (Re.group m 2)))) /\
  returned (_parse_root_id_and_session "ABC-123-4.eaf" w) = Some (Some "ABC-123", Some "4") /\
  returned (_parse_root_id_and_session "abc-123-4.EAF" w) = Some (Some "ABC-123", Some "4") /\
  returned (_parse_root_id_and_session "not-a-match.eaf" w) = Some (None, None).
Proof.
  split; [|repeat split; rewrite resolver_returns; vm_compute; reflexivity].
  intros filename. rewrite resolver_returns. unfold identity, Re.match_.
  rewrite ReFacts.match_shape.
  assert (Hprefix : forall (p rest : list Re.char) (m : Re.match_object),
            Str.chars filename = (p ++ rest)%list ->
            Re.fullmatch_chars pattern p IGNORECASE = Some m ->
            exists g1 g2 : string,
              parse_id (Str.chars filename) = Some (g1, g2, rest) /\
              m = <[2%nat := g2]> (<[1%nat := g1]> ∅)).
  { intros p rest m Hf Hm.
    apply ReFacts.fullmatch_iff in Hm as (g1 & g2 & Hs & ->).
    exists g1, g2. split; [|reflexivity].
    apply ReFacts.parse_id_shape. eauto. }
  split; [|split].
  - intros p rest m Hf Hm.
    destruct (Hprefix p rest m Hf Hm) as (g1 & g2 & -> & ->). reflexivity.
  - intros Hno.
    destruct (parse_id (Str.chars filename)) as [[[g1 g2] rest]|] eqn:Hp;
      [|reflexivity].
    apply ReFacts.parse_id_shape in Hp as (p & Hf & Hs).
    specialize (Hno p rest Hf).
    assert (Hm : Re.fullmatch_chars pattern p IGNORECASE
                 = Some (<[2%nat := g2]> (<[1%nat := g1]> ∅)))
      by (apply ReFacts.fullmatch_iff; eauto).
    congruence.
  - intros m Hm. unfold Re.fullmatch in Hm.
    destruct (Hprefix (Str.chars filename) [] m (eq_sym (app_nil_r _)) Hm)
      as (g1 & g2 & -> & ->).
    reflexivity.
Qed.

Lemma resolver_matches_prefix_witness :
  returned (_parse_root_id_and_session "ſpk-001-1.eaf~" Toy.corpus)
  = Some (Some "SPK-001", Some "1") /\
  returned (_parse_root_id_and_session "ABC-١٢٣-４.eaf" Toy.corpus)
  = Some (Some "ABC-١٢٣", Some "４") /\
  returned (_parse_root_id_and_session "-1-2.eaf" Toy.corpus) = Some (None, None).
Proof.
  destruct (resolver_matches_prefix (L := Toy.libs) Toy.corpus) as [H _].
  split; [|split].
  - destruct (H "ſpk-001-1.eaf~") as [H1 _].
    rewrite (H1 (Str.chars "ſpk-001-1.eaf") (Str.chars "~")
               (<[2%nat := "1"]> (<[1%nat := "ſpk-001"]> ∅)))
      by (vm_compute; reflexivity).
    vm_compute. reflexivity.
  - destruct (H "ABC-١٢٣-４.eaf") as (_ & _ & H3).
    rewrite (H3 (<[2%nat := "４"]> (<[1%nat := "ABC-١٢٣"]> ∅)))
      by (vm_compute; reflexivity).
    vm_compute. reflexivity.
  - destruct (H "-1-2.eaf") as (_ & H2 & _). apply H2.
    intros p rest Hp. rewrite ReFacts.fullmatch_shape.
    destruct p as [|c p]; [reflexivity|].
    vm_compute in Hp. injection Hp as <- _. reflexivity.
Defined.

(** ** Running the monad *)

Section Runs.
Context `{L : Libs}.

Lemma bind_run {A B} (m : M A) (f : A -> M B) (w : world) :
  (m ≫= f) w =
    match m w with
    | Return a w' => f a w'
    | Raise e w' => Raise e w'
    end.
Proof. reflexivity. Qed.

Lemma mret_run {A} (a : A) (w : world) : (mret a : M A) w = Return a w.
Proof. reflexivity. Qed.

Lemma bind_Return {A B} (m : M A) (f : A -> M B) (w w2 : world) (b : B) :
  (m ≫= f) w = Return b w2 ->
  exists a w1, m w = Return a w1 /\ f a w1 = Return b w2.
Proof. rewrite bind_run. destruct (m w) as [a w1|]; [eauto | discriminate]. Qed.

Lemma bind_Raise_l {A B} (m : M A) (f : A -> M B) (w w1 : world) (e : exn) :
  m w = Raise e w1 -> (m ≫= f) w = Raise e w1.
Proof. intros H. now rewrite bind_run, H. Qed.

Lemma bind_Return_l {A B} (m : M A) (f : A -> M B) (w w1 : world) (a : A) :
  m w = Return a w1 -> (m ≫= f) w = f a w1.
Proof. intros H. now rewrite bind_run, H. Qed.

Lemma lift_Return {A} (r : exn + A) (w w' : world) (a : A) :
  lift r w = Return a w' -> r = inr a /\ w' = w.
Proof. destruct r; [discriminate|]. now intros [= -> ->]. Qed.

Lemma read_Return (p : string) (w w' : world) (c : content) :
  read p w = Return c w' -> files w !! p = Some c /\ w' = w.
Proof. unfold read. destruct (files w !! p); [|discriminate]. now intros [= -> ->]. Qed.

Lemma write_Return (p : string) (c : content) (w w' : world) :
  write p c w = Return () w' ->
  w' = {| files := <[p := c]> (files w); dirs := dirs w; stdout := stdout w |}.
Proof.
  unfold write. destruct (open_w (files w) (dirs w) p); [discriminate|].
  now intros [= <-].
Qed.

Lemma os_remove_Return (p : string) (w w' : world) :
  os_remove p w = Return () w' ->
  w' = {| files := delete p (files w); dirs := dirs w; stdout := stdout w |}.
Proof.
  unfold os_remove. destruct (files w !! p); [|discriminate]. now intros [= <-].
Qed.

Lemma os_makedirs_Return (p : string) (w w' : world) :
  os_makedirs p w = Return () w' ->
  w' = {| files := files w; dirs := dirs w ∪ {[p]}; stdout := stdout w |}.
Proof.
  unfold os_makedirs. destruct (files w !! p); [discriminate|]. now intros [= <-].
Qed.

Lemma print_exact (line : string) (w : world) :
  print line w
  = Return () {| files := files w; dirs := dirs w; stdout := (stdout w ++ [line])%list |}.
Proof. reflexivity. Qed.

Lemma os_makedirs_run (p : string) (w : world) :
  files w !! p = None ->
  os_makedirs p w
  = Return () {| files := files w; dirs := dirs w ∪ {[p]}; stdout := stdout w |}.
Proof. intros H. unfold os_makedirs. now rewrite H. Qed.

Lemma read_run (p : string) (c : content) (w : world) :
  files w !! p = Some c -> read p w = Return c w.
Proof. intros H. unfold read. now rewrite H. Qed.

Lemma write_run (p : string) (c : content) (w : world) :
  open_w (files w) (dirs w) p = None ->
  write p c w
  = Return () {| files := <[p := c]> (files w); dirs := dirs w; stdout := stdout w |}.
Proof. intros H. unfold write. now rewrite H. Qed.

(** A run that raises nothing returns. *)
Lemma run_total {A} (o : outcome A) :
  raised o = None -> exists a, o = Return a (final o).
Proof. destruct o; [eauto | discriminate]. Qed.

Lemma run_Return {A} (o : outcome A) (a : A) :
  returned o = Some a -> o = Return a (final o).
Proof. destruct o; [now intros [= ->] | discriminate]. Qed.

(** ** Loops *)

Lemma for_app {A B} (xs ys : list A) (body : B -> A -> M B) (acc : B) (w : world) :
  for_ (xs ++ ys)%list body acc w =
    match for_ xs body acc w with
    | Return acc' w' => for_ ys body acc' w'
    | Raise e w' => Raise e w'
    end.
Proof.
  revert acc w. induction xs as [|x xs IH]; intros acc w; [reflexivity|].
  cbn [for_ app]. rewrite !bind_run.
  destruct (body acc x w); [apply IH | reflexivity].
Qed.

(** An exception in the body of a loop ends the loop. *)
Lemma for_Raise {A B} (xs ys : list A) (x : A) (body : B -> A -> M B)
    (acc acc' : B) (w w1 w2 : world) (e : exn) :
  for_ xs body acc w = Return acc' w1 ->
  body acc' x w1 = Raise e w2 ->
  for_ (xs ++ x :: ys)%list body acc w = Raise e w2.
Proof.
  intros Hxs Hx. rewrite for_app, Hxs. cbn [for_]. now apply bind_Raise_l.
Qed.

(** An invariant of the accumulator kept by the body is kept by the loop. *)
Lemma for_invariant {A B} (P : B -> world -> Prop) (xs : list A)
    (body : B -> A -> M B) :
  (forall acc x w acc' w', P acc w -> body acc x w = Return acc' w' -> P acc' w') ->
  forall acc w acc' w',
    P acc w -> for_ xs body acc w = Return acc' w' -> P acc' w'.
Proof.
  intros Hbody. induction xs as [|x xs IH]; intros acc w acc' w' HP Hrun.
  - injection Hrun as <- <-. exact HP.
  - cbn [for_] in Hrun. apply bind_Return in Hrun as (a & w1 & Hx & Hrest).
    eapply IH; [|exact Hrest]. eapply Hbody; eauto.
Qed.

End Runs.

(** Splits a run [(m ≫= f) w = Return b w'] into the run of [m] and of [f]. *)
Tactic Notation "bind_inv" hyp(H) "as" simple_intropattern(a) ident(w) ident(H1) :=
  apply bind_Return in H as (a & w & H1 & H).

(** ** The Audio Slicer *)

Section Slicer.
Context `{L : Libs}.

Lemma slice_Return (wav_path seg_path : string) (start_time end_time : Z)
    (w w' : world) (r : option (list float)) :
  slice_and_process_audio wav_path seg_path start_time end_time w = Return r w' ->
  sliced wav_path seg_path start_time end_time w w' r.
Proof.
  unfold slice_and_process_audio, sliced. intros H.
  bind_inv H as c w1 Hc. apply read_Return in Hc as [Hc ->].
  bind_inv H as audio w1 Ha. apply lift_Return in Ha as [Ha ->].
  bind_inv H as segment w1 Hs. apply lift_Return in Hs as [Hs ->].
  bind_inv H as c' w1 He. apply lift_Return in He as [He ->].
  bind_inv H as [] w1 Hw. apply write_Return in Hw as ->.
  bind_inv H as c'' w1 Hc''. apply read_Return in Hc'' as [Hc'' ->].
  cbn [files] in Hc''. rewrite lookup_insert_eq in Hc''. injection Hc'' as <-.
  bind_inv H as [audio_data sampling_rate] w1 Hl. apply lift_Return in Hl as [Hl ->].
  exists c, audio, segment, c', audio_data, sampling_rate.
  do 5 (split; [assumption|]).
  case_bool_decide as Hlen.
  - bind_inv H as [] w1 Hp. bind_inv H as [] w2 Hrm.
    apply os_remove_Return in Hrm as ->. injection H as <- <-.
    unfold print in Hp. injection Hp as <-. cbn [files].
    split; [done|]. split; [|done]. intros _. apply lookup_delete_eq.
  - bind_inv H as samples w1 Hres. bind_inv H as c3 w2 Hsf.
    apply lift_Return in Hsf as [Hsf ->].
    bind_inv H as [] w2 Hw. apply write_Return in Hw as ->.
    injection H as <- <-. cbn [files].
    split; [split; [discriminate | done]|]. split; [discriminate|].
    intros _. exists samples, c3.
    split; [reflexivity|]. unfold target_sampling_rate in *.
    case_bool_decide as Hsr.
    + apply lift_Return in Hres as [Hres ->].
      repeat split; try done. apply lookup_insert_eq.
    + injection Hres as <- <-.
      repeat split; try done. apply lookup_insert_eq.
Qed.

(** The slicer on a slice that decodes to no sample. *)
Lemma slice_run_empty (wav_path seg_path : string) (start_time end_time : Z)
    (w : world) (c c' : content) (audio segment : AudioSegment) (rate : Z) :
  files w !! wav_path = Some c ->
  from_wav c = inr audio ->
  getitem audio start_time end_time = inr segment ->
  export segment = inr c' ->
  open_w (files w) (dirs w) seg_path = None ->
  librosa_load c' = inr ([], rate) ->
  slice_and_process_audio wav_path seg_path start_time end_time w
  = Return None
      {| files := delete seg_path (files w);
         dirs := dirs w;
         stdout := (stdout w
                    ++ ["Deleting " +:+ seg_path +:+ " due to zero-length input signal"])%list |}.
Proof.
  intros Hc Ha Hs He Ho Hl. unfold slice_and_process_audio.
  rewrite (bind_Return_l _ _ _ _ _ (read_run _ _ _ Hc)).
  rewrite Ha. cbn [lift]. rewrite (bind_Return_l _ _ _ _ _ (mret_run _ _)).
  rewrite Hs. cbn [lift]. rewrite (bind_Return_l _ _ _ _ _ (mret_run _ _)).
  rewrite He. cbn [lift]. rewrite (bind_Return_l _ _ _ _ _ (mret_run _ _)).
  rewrite (bind_Return_l _ _ _ _ _ (write_run _ _ _ Ho)).
  erewrite bind_Return_l; [|apply read_run; cbn [files]; apply lookup_insert_eq].
  rewrite Hl. cbn [lift]. rewrite (bind_Return_l _ _ _ _ _ (mret_run _ _)).
  rewrite bool_decide_eq_true_2 by reflexivity.
  rewrite bind_run, print_exact, bind_run. unfold os_remove. cbn [files dirs stdout].
  rewrite lookup_insert_eq, mret_run. f_equal. f_equal. apply delete_insert_eq.
Qed.

(** The slicer on a slice that decodes to samples: they are resampled
    unless their rate is 16000 already, encoded, and written over the slice. *)
Lemma slice_run_samples (wav_path seg_path : string) (start_time end_time : Z)
    (w : world) (c c' c3 : content) (audio segment : AudioSegment)
    (audio_data samples : list float) (rate : Z) :
  files w !! wav_path = Some c ->
  from_wav c = inr audio ->
  getitem audio start_time end_time = inr segment ->
  export segment = inr c' ->
  open_w (files w) (dirs w) seg_path = None ->
  librosa_load c' = inr (audio_data, rate) ->
  List.length audio_data <> 0%nat ->
  (rate = 16000 -> samples = audio_data) ->
  (rate <> 16000 -> librosa_resample audio_data rate 16000 = inr samples) ->
  sf_write samples 16000 = inr c3 ->
  open_w (<[seg_path := c']> (files w)) (dirs w) seg_path = None ->
  slice_and_process_audio wav_path seg_path start_time end_time w
  = Return (Some samples)
      {| files := <[seg_path := c3]> (files w); dirs := dirs w; stdout := stdout w |}.
Proof.
  intros Hc Ha Hs He Ho Hl Hlen Hsame Hres Hsf Ho2. unfold slice_and_process_audio.
  rewrite (bind_Return_l _ _ _ _ _ (read_run _ _ _ Hc)).
  rewrite Ha. cbn [lift]. rewrite (bind_Return_l _ _ _ _ _ (mret_run _ _)).
  rewrite Hs. cbn [lift]. rewrite (bind_Return_l _ _ _ _ _ (mret_run _ _)).
  rewrite He. cbn [lift]. rewrite (bind_Return_l _ _ _ _ _ (mret_run _ _)).
  rewrite (bind_Return_l _ _ _ _ _ (write_run _ _ _ Ho)).
  erewrite bind_Return_l; [|apply read_run; cbn [files]; apply lookup_insert_eq].
  rewrite Hl. cbn [lift]. rewrite (bind_Return_l _ _ _ _ _ (mret_run _ _)).
  rewrite bool_decide_eq_false_2 by exact Hlen.
  unfold target_sampling_rate.
  assert (Hstep : (if bool_decide (rate ≠ 16000)
                   then lift (librosa_resample audio_data rate 16000)
                   else mret audio_data)
                    {| files := <[seg_path := c']> (files w);
                       dirs := dirs w; stdout := stdout w |}
                  = Return samples
                      {| files := <[seg_path := c']> (files w);
                         dirs := dirs w; stdout := stdout w |}).
  { case_bool_decide as Hr.
    - now rewrite (Hres Hr).
    - rewrite Hsame; [reflexivity|]. destruct (decide (rate = 16000)); done. }
  rewrite (bind_Return_l _ _ _ _ _ Hstep).
  rewrite Hsf. cbn [lift]. rewrite (bind_Return_l _ _ _ _ _ (mret_run _ _)).
  erewrite bind_Return_l; [|apply write_run; cbn [files dirs]; exact Ho2].
  rewrite mret_run. cbn [files dirs stdout]. f_equal. f_equal. apply insert_insert_eq.
Qed.

(** C5: the slicer returns [None] exactly when the sample array decoded from
    the slice it wrote is empty, and then no file is left at [seg_path]; for a
    slice that decodes to samples it returns them (resampled unless their rate
    is 16000 already) and leaves at [seg_path] the file encoded from them at
    16000 Hz.  Both are shown in two directions: what a call that returns has
    done, and that the call does return when the recording is there, the
    decoders and encoders succeed and [seg_path] can be written. *)
Theorem slicer_validates (wav_path seg_path : string) (start_time end_time : Z)
    (w : world) :
  (forall (w' : world) (r : option (list float)),
     slice_and_process_audio wav_path seg_path start_time end_time w = Return r w' ->
     exists (c : content) (audio segment : AudioSegment) (c' : content)
            (audio_data : list float) (sampling_rate : Z),
       files w !! wav_path = Some c /\
       from_wav c = inr audio /\
       getitem audio start_time end_time = inr segment /\
       export segment = inr c' /\
       librosa_load c' = inr (audio_data, sampling_rate) /\
       (r = None <-> List.length audio_data = 0%nat) /\
       (r = None -> files w' !! seg_path = None) /\
       (r <> None ->
        exists (samples : list float) (c3 : content),
          r = Some samples /\
          (sampling_rate = 16000 -> samples = audio_data) /\
          (sampling_rate <> 16000 ->
           librosa_resample audio_data sampling_rate 16000 = inr samples) /\
          sf_write samples 16000 = inr c3 /\
          files w' !! seg_path = Some c3)) /\
  (forall (c c' : content) (audio segment : AudioSegment)
          (audio_data : list float) (sampling_rate : Z),
     files w !! wav_path = Some c ->
     from_wav c = inr audio ->
     getitem audio start_time end_time = inr segment ->
     export segment = inr c' ->
     open_w (files w) (dirs w) seg_path = None ->
     librosa_load c' = inr (audio_data, sampling_rate) ->
     (List.length audio_data = 0%nat ->
      exists w' : world,
        slice_and_process_audio wav_path seg_path start_time end_time w = Return None w' /\
        files w' !! seg_path = None) /\
     (List.length audio_data <> 0%nat ->
      forall (samples : list float) (c3 : content),
        (sampling_rate = 16000 -> samples = audio_data) ->
        (sampling_rate <> 16000 ->
         librosa_resample audio_data sampling_rate 16000 = inr samples) ->
        sf_write samples 16000 = inr c3 ->
        open_w (<[seg_path := c']> (files w)) (dirs w) seg_path = None ->
        exists w' : world,
          slice_and_process_audio wav_path seg_path start_time end_time w
          = Return (Some samples) w' /\
          files w' !! seg_path = Some c3)).
Proof.
  split.
  - intros w' r. apply slice_Return.
  - intros c c' audio segment audio_data sampling_rate Hc Ha Hs He Ho Hl. split.
    + intros Hlen. destruct audio_data; [|discriminate Hlen].
      eexists. split; [eapply slice_run_empty; eassumption|].
      cbn [files]. apply lookup_delete_eq.
    + intros Hlen samples c3 Hsame Hres Hsf Ho2.
      eexists. split; [eapply slice_run_samples; eassumption|].
      cbn [files]. apply lookup_insert_eq.
Qed.

End Slicer.

Lemma slicer_validates_witness :
  (exists w',
     slice_and_process_audio "wav/SPK-001-1.wav" "0-10.wav" 0 10 Toy.corpus
     = Return (Some (Toy.first_slice)) w' /\
     files w' !! "0-10.wav" = Some (Toy.WavFile 16000 (Toy.first_slice))) /\
  (exists w',
     slice_and_process_audio "wav/SPK-001-1.wav" "25-25.wav" 25 25 Toy.corpus
     = Return None w' /\
     files w' !! "25-25.wav" = None).
Proof.
  destruct (slicer_validates (L := Toy.libs) "wav/SPK-001-1.wav" "0-10.wav" 0 10 Toy.corpus)
    as [_ Hfull].
  destruct (slicer_validates (L := Toy.libs) "wav/SPK-001-1.wav" "25-25.wav" 25 25 Toy.corpus)
    as [_ Hnone].
  split.
  - destruct (Hfull (Toy.WavFile 1000 (Toy.ramp 30)) (Toy.WavFile 1000 (Toy.ramp 10))
                (1000, Toy.ramp 30) (1000, Toy.ramp 10) (Toy.ramp 10) 1000) as [_ H].
    + vm_compute. reflexivity.
    + reflexivity.
    + vm_compute. reflexivity.
    + reflexivity.
    + vm_compute. reflexivity.
    + reflexivity.
    + apply (H ltac:(discriminate) (Toy.first_slice) (Toy.WavFile 16000 (Toy.first_slice))).
      * intros Hr. discriminate Hr.
      * intros _. vm_compute. reflexivity.
      * reflexivity.
      * vm_compute. reflexivity.
  - destruct (Hnone (Toy.WavFile 1000 (Toy.ramp 30)) (Toy.WavFile 1000 [])
                (1000, Toy.ramp 30) (1000, []) [] 1000) as [H _].
    + vm_compute. reflexivity.
    + reflexivity.
    + vm_compute. reflexivity.
    + reflexivity.
    + vm_compute. reflexivity.
    + reflexivity.
    + apply H. reflexivity.
Defined.

(** ** The loops of the Dataset Assembler *)

Section Assembler.
Context `{L : Libs}.
Implicit Types (self : DatasetBuilder) (data : list (Segment float)) (w : world).

Lemma per_span_Return wav_path seg_folder root_id data annotation w data' w' :
  per_span wav_path seg_folder root_id data annotation w = Return data' w' ->
  exists r,
    data' = (data ++ [r])%list /\ record_of seg_folder root_id annotation r /\
    slice_and_process_audio wav_path (path r) annotation.1.1 annotation.1.2 w
    = Return (waveform r) w'.
Proof.
  destruct annotation as [[start_time end_time] text]. unfold per_span. intros H.
  bind_inv H as wf w1 Hs. injection H as <- <-.
  eexists. split; [reflexivity|]. split; [|exact Hs].
  repeat split.
Qed.

Lemma per_span_Raise wav_path seg_folder root_id data annotation w e w' :
  slice_and_process_audio wav_path
    (seg_path_of seg_folder annotation.1.1 annotation.1.2)
    annotation.1.1 annotation.1.2 w = Raise e w' ->
  per_span wav_path seg_folder root_id data annotation w = Raise e w'.
Proof.
  destruct annotation as [[start_time end_time] text]. unfold per_span.
  intros H. now apply bind_Raise_l.
Qed.

(** One record per span, in the order of the spans. *)
Lemma spans_Return wav_path seg_folder root_id annotations :
  forall data w data' w',
    for_ annotations (per_span wav_path seg_folder root_id) data w = Return data' w' ->
    exists new, data' = (data ++ new)%list /\
                Forall2 (record_of seg_folder root_id) annotations new.
Proof.
  induction annotations as [|a annotations IH]; intros data w data' w' H.
  - injection H as <- <-. exists []. split; [now rewrite app_nil_r | constructor].
  - cbn [for_] in H. bind_inv H as data1 w1 Ha.
    apply per_span_Return in Ha as (r & -> & Hr & _).
    apply IH in H as (new & -> & Hnew).
    exists (r :: new). split; [now rewrite <- app_assoc | now constructor].
Qed.

(** A loop over no span leaves the machine as it is. *)
Lemma spans_nil_world wav_path seg_folder root_id annotations :
  forall data w data' w',
    for_ annotations (per_span wav_path seg_folder root_id) data w = Return data' w' ->
    List.length data' = List.length data -> annotations = [] /\ w' = w.
Proof.
  intros data w data' w' H Hlen.
  pose proof (spans_Return _ _ _ _ _ _ _ _ H) as (new & -> & Hnew).
  rewrite length_app in Hlen.
  destruct Hnew as [|a r annotations new Hr Hnew]; [|simpl in Hlen; lia].
  split; [reflexivity|]. now injection H as _ <-.
Qed.

Lemma parse_eaf_file_Return eaf_path w annotations w' :
  parse_eaf_file eaf_path w = Return annotations w' ->
  w' = w /\
  exists c eaf,
    files w !! eaf_path = Some c /\ Elan_Eaf c = inr eaf /\
    annotations =
      flat_map (get_annotation_data_for_tier eaf)
        (get_tier_ids_for_linguistic_type eaf "verbatim").
Proof.
  unfold parse_eaf_file. intros H.
  bind_inv H as c w1 Hc. apply read_Return in Hc as [Hc ->].
  bind_inv H as eaf w1 He. apply lift_Return in He as [He ->].
  injection H as <- <-. split; [reflexivity|].
  exists c, eaf. repeat split; try assumption.
  induction (get_tier_ids_for_linguistic_type eaf "verbatim") as [|t ts IH];
    [reflexivity|].
  cbn [flat_map]. rewrite IH. f_equal.
  induction (get_annotation_data_for_tier eaf t) as [|[[? ?] ?] l IHl];
    [reflexivity|].
  rewrite fmap_cons. f_equal. exact IHl.
Qed.

(** The annotation file is read from the files alone. *)
Lemma parse_eaf_file_same_fs eaf_path w w1 :
  same_fs w w1 ->
  returned (parse_eaf_file eaf_path w1) = returned (parse_eaf_file eaf_path w) /\
  raised (parse_eaf_file eaf_path w1) = raised (parse_eaf_file eaf_path w).
Proof.
  intros [Hf _]. unfold parse_eaf_file, read. rewrite !bind_run, Hf.
  destruct (files w !! eaf_path) as [c|]; [|done].
  rewrite !bind_run. destruct (Elan_Eaf c); done.
Qed.

(** What [per_file] does on an entry, when it returns. *)
Lemma per_file_Return self data idx eaf_file w data' w' :
  per_file self data (idx, eaf_file) w = Return data' w' ->
  exists w1, same_fs w w1 /\
    ((exists_ w (wav_path_of self eaf_file) /\
      exists annotations w2 w3,
        parse_eaf_file (eaf_path_of self eaf_file) w1 = Return annotations w1 /\
        os_makedirs (seg_folder_of self eaf_file) w1 = Return () w2 /\
        for_ annotations
          (per_span (wav_path_of self eaf_file) (seg_folder_of self eaf_file)
             (identity eaf_file).1) data w2 = Return data' w3 /\
        same_fs w3 w')
     \/ (~ exists_ w (wav_path_of self eaf_file) /\ data' = data /\ same_fs w w')).
Proof.
  unfold per_file. intros H.
  destruct (resolver_run eaf_file w) as (w1 & Hres & Hfs).
  rewrite (bind_Return_l _ _ _ _ _ Hres) in H.
  destruct (identity eaf_file) as [root_id session] eqn:Hid.
  exists w1. split; [exact Hfs|].
  bind_inv H as found w2 Hfound. unfold os_path_exists in Hfound.
  injection Hfound as <- <-.
  assert (Hpath : wav_path_of self eaf_file
                  = os_path_join (wav_dir self)
                      (fmt root_id +:+ "-" +:+ fmt session +:+ ".wav"))
    by (unfold wav_path_of; now rewrite Hid).
  rewrite <- Hpath in H. destruct Hfs as [Hf Hd].
  bind_inv H as data1 w2 Hbody.
  assert (Htail : data' = data1 /\ same_fs w2 w').
  { bind_inv H as [] w3 Hp. injection H as <- <-. split; [reflexivity|].
    case_bool_decide; [unfold print in Hp|]; injection Hp as <-; done. }
  destruct Htail as [-> Htail]. clear H.
  case_bool_decide as Hex.
  - left. split; [unfold exists_; rewrite Hpath, <- Hf, <- Hd; exact Hex|].
    bind_inv Hbody as annotations w3 Hparse.
    pose proof (parse_eaf_file_Return _ _ _ _ Hparse) as [-> _].
    bind_inv Hbody as [] w3 Hmk.
    exists annotations, w3, w2. simpl. repeat split; try assumption; apply Htail.
  - right. split; [unfold exists_; rewrite Hpath, <- Hf, <- Hd; exact Hex|].
    bind_inv Hbody as [] w3 Hp. injection Hbody as <- <-.
    unfold print in Hp. injection Hp as <-.
    split; [reflexivity|]. destruct Htail as [Hf' Hd'].
    split; [now rewrite Hf' | now rewrite Hd'].
Qed.

End Assembler.

(** ** Records *)

(** C6: when [per_file] returns on an annotation file whose recording
    exists, the annotation file was parsed and exactly one record was
    appended per span, in order, whatever the slicer returned for it; the
    record has the span's requested length as [duration], the resolved root
    id as [conversation_id], the span's text, and the path
    [seg_dir/stem/start-end.wav] built by [os.path.join]. *)
Theorem one_record_per_span `{L : Libs} (self : DatasetBuilder)
    (data data' : list (Segment float)) (idx : nat) (eaf_file : string) (w w' : world) :
  per_file self data (idx, eaf_file) w = Return data' w' ->
  exists_ w (wav_path_of self eaf_file) ->
  exists (annotations : list (Z * Z * string)) (new : list (Segment float)),
    returned (parse_eaf_file (eaf_path_of self eaf_file) w) = Some annotations /\
    data' = (data ++ new)%list /\
    Forall2
      (fun '(start_time, end_time, text) r =>
         path r =
           os_path_join (os_path_join (seg_dir self) (os_path_splitext eaf_file).1)
             (pretty start_time +:+ "-" +:+ pretty end_time +:+ ".wav") /\
         duration r = end_time - start_time /\
         conversation_id r = (identity eaf_file).1 /\
         transcription r = text)
      annotations new.
Proof.
  intros Hrun Hfound.
  apply per_file_Return in Hrun as (w1 & Hfs & [(_ & Hyes) | (Hno & _)]); [|done].
  destruct Hyes as (annotations & w2 & w3 & Hparse & _ & Hloop & _).
  apply spans_Return in Hloop as (new & -> & Hnew).
  exists annotations, new. split; [|split; [reflexivity|]].
  - destruct (parse_eaf_file_same_fs (eaf_path_of self eaf_file) w w1 Hfs) as [<- _].
    now rewrite Hparse.
  - eapply Forall2_impl; [exact Hnew|].
    intros [[start_time end_time] text] r (Hp & Ht & _ & Hd & Hc). done.
Qed.

Lemma one_record_per_span_witness :
  exists data,
    returned (per_file Toy.builder [] (0%nat, "SPK-001-1.eaf") Toy.corpus) = Some data /\
    (path <$> data) = ["seg/SPK-001-1/0-10.wav"; "seg/SPK-001-1/10-25.wav";
                       "seg/SPK-001-1/25-25.wav"] /\
    (duration <$> data) = [10; 15; 0] /\
    (conversation_id <$> data) = [Some "SPK-001"; Some "SPK-001"; Some "SPK-001"].
Proof.
  destruct (run_total (per_file (L := Toy.libs) Toy.builder []
                         (0%nat, "SPK-001-1.eaf") Toy.corpus))
    as [data' Hrun]; [vm_compute; reflexivity|].
  exists data'. split; [now rewrite Hrun|].
  assert (Hfound : exists_ Toy.corpus (wav_path_of Toy.builder "SPK-001-1.eaf"))
    by (left; vm_compute; eauto).
  destruct (one_record_per_span Toy.builder [] data' 0 "SPK-001-1.eaf" Toy.corpus _
              Hrun Hfound) as (annotations & new & Hparse & -> & Hnew).
  vm_compute in Hparse. injection Hparse as <-.
  repeat match goal with
         | H : Forall2 _ (_ :: _) _ |- _ =>
             apply Forall2_cons_inv_l in H as (? & ? & (? & ? & ? & ?) & H & ->)
         | H : Forall2 _ [] _ |- _ => apply Forall2_nil_inv_l in H as ->
         end.
  cbn [fmap list_fmap app].
  repeat match goal with H : _ = _ |- _ => rewrite H; clear H end.
  vm_compute. repeat split.
Defined.

(** C10: every record appended has [sampling_rate = 16000], whatever its
    waveform; and right after a record with a null waveform is appended, no
    file exists at its path. *)
Theorem sampling_rate_16000 `{L : Libs} :
  (forall (wav_path seg_folder : string) (root_id : option string)
          (data data' : list (Segment float)) (annotation : Z * Z * string)
          (w w' : world),
     per_span wav_path seg_folder root_id data annotation w = Return data' w' ->
     exists r, data' = (data ++ [r])%list /\ sampling_rate r = 16000 /\
               (waveform r = None -> files w' !! path r = None)) /\
  (forall (self : DatasetBuilder) (w w' : world) (data : list (Segment float)),
     accumulate self w = Return data w' ->
     Forall (fun r => sampling_rate r = 16000) data).
Proof.
  split.
  - intros wav_path seg_folder root_id data data' annotation w w' H.
    apply per_span_Return in H as (r & -> & Hr & Hs).
    exists r. split; [reflexivity|].
    destruct annotation as [[start_time end_time] text].
    destruct Hr as (_ & _ & Hrate & _). split; [exact Hrate|].
    intros Hnone.
    apply slice_Return in Hs as (? & ? & ? & ? & ? & ? & _ & _ & _ & _ & _ & _ & Hgone & _).
    now apply Hgone.
  - intros self w w' data H. unfold accumulate in H.
    bind_inv H as [] w0 Hmk. bind_inv H as listing w1 Hls.
    revert H.
    apply (for_invariant (fun data _ => Forall (fun r => sampling_rate r = 16000) data));
      [|constructor].
    intros acc [idx eaf_file] wa acc' wb Hacc Hbody.
    apply per_file_Return in Hbody as (w2 & _ & [(_ & Hyes) | (_ & -> & _)]); [|exact Hacc].
    destruct Hyes as (annotations & w3 & w4 & _ & _ & Hloop & _).
    apply spans_Return in Hloop as (new & -> & Hnew).
    apply Forall_app. split; [exact Hacc|].
    clear -Hnew. induction Hnew as [|[[s e] t] r anns new Hr _ IH]; constructor; [|exact IH].
    apply Hr.
Qed.

Lemma sampling_rate_16000_witness :
  exists data,
    returned (accumulate Toy.builder Toy.corpus) = Some data /\
    Forall (fun r => sampling_rate r = 16000) data.
Proof.
  destruct (run_total (accumulate (L := Toy.libs) Toy.builder Toy.corpus))
    as [data Hrun]; [vm_compute; reflexivity|].
  exists data. split; [now rewrite Hrun|].
  exact (proj2 (sampling_rate_16000 (L := Toy.libs)) Toy.builder Toy.corpus _ data Hrun).
Defined.

(** ** Exceptions in the loops *)

Section Propagation.
Context `{L : Libs}.
Implicit Types (self : DatasetBuilder) (data : list (Segment float)) (w : world).

Lemma raised_Raise {A} (o : outcome A) (e : exn) :
  raised o = Some e -> exists w', o = Raise e w'.
Proof. destruct o; [discriminate|]. intros [= ->]. eauto. Qed.

Lemma bind_raised_l {A B} (m : M A) (f : A -> M B) w e :
  raised (m w) = Some e -> raised ((m ≫= f) w) = Some e.
Proof. intros H. rewrite bind_run. now destruct (m w). Qed.

Lemma os_path_exists_run (p : string) w :
  os_path_exists p w = Return (bool_decide (exists_ w p)) w.
Proof. reflexivity. Qed.

Lemma enumerate_lookup {A} (xs : list A) (i : nat) (x : A) :
  xs !! i = Some x -> enumerate xs !! i = Some (i, x).
Proof.
  intros H. unfold enumerate, zip. apply lookup_zip_with_Some.
  exists i, x. split; [reflexivity|]. split; [|exact H].
  apply lookup_seq. split; [reflexivity|]. now apply lookup_lt_Some in H.
Qed.

(** [per_file], once the identity is resolved and the recording found. *)
Lemma per_file_found self data idx eaf_file w :
  exists_ w (wav_path_of self eaf_file) ->
  exists w1, same_fs w w1 /\ stdout w1 = stdout (final (_parse_root_id_and_session eaf_file w)) /\
    per_file self data (idx, eaf_file) w =
      ((annotations ← parse_eaf_file (eaf_path_of self eaf_file);
        os_makedirs (seg_folder_of self eaf_file);;
        for_ annotations
          (per_span (wav_path_of self eaf_file) (seg_folder_of self eaf_file)
             (identity eaf_file).1) data)
       ≫= λ data,
         (if bool_decide ((Z.of_nat idx + 1) mod 10 = 0)
          then print (pretty (Z.of_nat idx + 1) +:+ " files built into dataset")
          else mret ());;
         mret data) w1.
Proof.
  intros Hex. unfold per_file.
  destruct (resolver_run eaf_file w) as (w1 & Hres & Hfs).
  exists w1. split; [exact Hfs|]. split; [now rewrite Hres|].
  rewrite (bind_Return_l _ _ _ _ _ Hres).
  unfold wav_path_of, eaf_path_of, seg_folder_of in *.
  destruct (identity eaf_file) as [root_id session].
  assert (Hex1 : exists_ w1 (os_path_join (wav_dir self)
                               (fmt root_id +:+ "-" +:+ fmt session +:+ ".wav"))).
  { destruct Hfs as [Hf Hd]. unfold exists_ in *. rewrite Hf, Hd. exact Hex. }
  rewrite bind_run, os_path_exists_run.
  rewrite (bool_decide_eq_true_2 _ Hex1). reflexivity.
Qed.

(** An exception of the Annotation Extractor leaves [per_file]. *)
Lemma per_file_Raise_parse self data idx eaf_file w e :
  exists_ w (wav_path_of self eaf_file) ->
  raised (parse_eaf_file (eaf_path_of self eaf_file) w) = Some e ->
  raised (per_file self data (idx, eaf_file) w) = Some e.
Proof.
  intros Hex Hp.
  destruct (per_file_found self data idx eaf_file w Hex) as (w1 & Hfs & _ & ->).
  apply bind_raised_l, bind_raised_l.
  now destruct (parse_eaf_file_same_fs (eaf_path_of self eaf_file) w w1 Hfs) as [_ ->].
Qed.

(** An exception of the Audio Slicer leaves [per_file]. *)
Lemma per_file_Raise_slice self data idx eaf_file w
    pre start_time end_time text post data2 w3 e w4 :
  exists_ w (wav_path_of self eaf_file) ->
  returned (parse_eaf_file (eaf_path_of self eaf_file) w)
  = Some (pre ++ (start_time, end_time, text) :: post)%list ->
  files w !! seg_folder_of self eaf_file = None ->
  for_ pre
    (per_span (wav_path_of self eaf_file) (seg_folder_of self eaf_file)
       (identity eaf_file).1) data (span_loop_world self eaf_file w)
  = Return data2 w3 ->
  slice_and_process_audio (wav_path_of self eaf_file)
    (seg_path_of (seg_folder_of self eaf_file) start_time end_time)
    start_time end_time w3 = Raise e w4 ->
  raised (per_file self data (idx, eaf_file) w) = Some e.
Proof.
  intros Hex Hp Hfree Hpre Hslice.
  destruct (per_file_found self data idx eaf_file w Hex) as (w1 & Hfs & Hout & ->).
  apply bind_raised_l.
  destruct (parse_eaf_file_same_fs (eaf_path_of self eaf_file) w w1 Hfs) as [Hret _].
  rewrite Hp in Hret. apply run_Return in Hret.
  assert (Hw1 : final (parse_eaf_file (eaf_path_of self eaf_file) w1) = w1).
  { pose proof Hret as Hret'. now apply parse_eaf_file_Return in Hret' as [-> _]. }
  rewrite Hw1 in Hret. rewrite (bind_Return_l _ _ _ _ _ Hret).
  assert (Hmk : os_makedirs (seg_folder_of self eaf_file) w1
                = Return () (span_loop_world self eaf_file w)).
  { unfold os_makedirs, span_loop_world. destruct Hfs as [-> ->].
    now rewrite Hfree, Hout. }
  rewrite (bind_Return_l _ _ _ _ _ Hmk).
  erewrite for_Raise; [reflexivity | exact Hpre |].
  apply (per_span_Raise _ _ _ _ (start_time, end_time, text)). exact Hslice.
Qed.

(** An exception in the body of the loop over the files leaves
    [build_dataset]. *)
Lemma build_Raise self w w0 listing i eaf_file data w1 e :
  os_makedirs (seg_dir self) w = Return () w0 ->
  listdir (files w0) (dirs w0) (eaf_dir self) = inr listing ->
  listing !! i = Some eaf_file ->
  for_ (take i (enumerate listing)) (per_file self) [] w0 = Return data w1 ->
  raised (per_file self data (i, eaf_file) w1) = Some e ->
  raised (build_dataset self w) = Some e.
Proof.
  intros Hmk Hls Hi Hpre Hbody.
  apply raised_Raise in Hbody as [w2 Hbody].
  unfold build_dataset. apply bind_raised_l. unfold accumulate.
  rewrite (bind_Return_l _ _ _ _ _ Hmk).
  assert (Hl : os_listdir (eaf_dir self) w0 = Return listing w0)
    by (unfold os_listdir; now rewrite Hls).
  rewrite (bind_Return_l _ _ _ _ _ Hl).
  rewrite <- (take_drop_middle _ _ _ (enumerate_lookup _ _ _ Hi)).
  now rewrite (for_Raise _ _ _ _ _ _ _ _ _ _ Hpre Hbody).
Qed.

(** What makes the Annotation Extractor and the Audio Slicer raise. *)
Lemma parse_eaf_file_Raise_missing eaf_path w :
  files w !! eaf_path = None ->
  raised (parse_eaf_file eaf_path w) = Some (FileNotFoundError eaf_path).
Proof. intros H. unfold parse_eaf_file, read. now rewrite bind_run, H. Qed.

Lemma parse_eaf_file_Raise_malformed eaf_path w c e :
  files w !! eaf_path = Some c -> Elan_Eaf c = inl e ->
  raised (parse_eaf_file eaf_path w) = Some e.
Proof.
  intros H He. unfold parse_eaf_file, read. rewrite bind_run, H, bind_run, He.
  reflexivity.
Qed.

Lemma slice_Raise_missing wav_path seg_path start_time end_time w :
  files w !! wav_path = None ->
  slice_and_process_audio wav_path seg_path start_time end_time w
  = Raise (FileNotFoundError wav_path) w.
Proof. intros H. unfold slice_and_process_audio, read. now rewrite bind_run, H. Qed.

Lemma slice_Raise_decode wav_path seg_path start_time end_time w c e :
  files w !! wav_path = Some c -> from_wav c = inl e ->
  slice_and_process_audio wav_path seg_path start_time end_time w = Raise e w.
Proof.
  intros H He. unfold slice_and_process_audio, read.
  rewrite bind_run, H, bind_run, He. reflexivity.
Qed.

Lemma slice_Raise_slice wav_path seg_path start_time end_time w c audio e :
  files w !! wav_path = Some c -> from_wav c = inr audio ->
  getitem audio start_time end_time = inl e ->
  slice_and_process_audio wav_path seg_path start_time end_time w = Raise e w.
Proof.
  intros H Ha He. unfold slice_and_process_audio, read.
  rewrite bind_run, H, bind_run, Ha. cbn [lift mret M_ret].
  rewrite bind_run, He. reflexivity.
Qed.

Lemma slice_Raise_encode wav_path seg_path start_time end_time w c audio segment e :
  files w !! wav_path = Some c -> from_wav c = inr audio ->
  getitem audio start_time end_time = inr segment ->
  export segment = inl e ->
  slice_and_process_audio wav_path seg_path start_time end_time w = Raise e w.
Proof.
  intros H Ha Hs He. unfold slice_and_process_audio, read.
  rewrite bind_run, H, bind_run, Ha. cbn [lift mret M_ret].
  rewrite bind_run, Hs. cbn [lift mret M_ret].
  rewrite bind_run, He. reflexivity.
Qed.

End Propagation.

(** C8: no exception is caught on the way out of [build_dataset].  When the
    loop over the files reaches an annotation file whose recording exists,
    an annotation file that cannot be read or parsed, and a recording that
    cannot be read, decoded, sliced or encoded at any of the spans, make
    [build_dataset] raise that very exception. *)
Theorem exceptions_abort_run `{L : Libs} (self : DatasetBuilder) (w w0 : world)
    (listing : list string) (i : nat) (eaf_file : string)
    (data : list (Segment float)) (w1 : world) :
  os_makedirs (seg_dir self) w = Return () w0 ->
  listdir (files w0) (dirs w0) (eaf_dir self) = inr listing ->
  listing !! i = Some eaf_file ->
  for_ (take i (enumerate listing)) (per_file self) [] w0 = Return data w1 ->
  exists_ w1 (wav_path_of self eaf_file) ->
  (files w1 !! eaf_path_of self eaf_file = None ->
   raised (build_dataset self w) = Some (FileNotFoundError (eaf_path_of self eaf_file))) /\
  (forall (c : content) (e : exn),
     files w1 !! eaf_path_of self eaf_file = Some c -> Elan_Eaf c = inl e ->
     raised (build_dataset self w) = Some e) /\
  (forall (pre post : list (Z * Z * string)) (start_time end_time : Z) (text : string)
          (data2 : list (Segment float)) (w3 : world),
     returned (parse_eaf_file (eaf_path_of self eaf_file) w1)
     = Some (pre ++ (start_time, end_time, text) :: post)%list ->
     files w1 !! seg_folder_of self eaf_file = None ->
     for_ pre
       (per_span (wav_path_of self eaf_file) (seg_folder_of self eaf_file)
          (identity eaf_file).1) data (span_loop_world self eaf_file w1)
     = Return data2 w3 ->
     (forall (e : exn) (w4 : world),
        slice_and_process_audio (wav_path_of self eaf_file)
          (seg_path_of (seg_folder_of self eaf_file) start_time end_time)
          start_time end_time w3 = Raise e w4 ->
        raised (build_dataset self w) = Some e) /\
     (files w3 !! wav_path_of self eaf_file = None ->
      raised (build_dataset self w)
      = Some (FileNotFoundError (wav_path_of self eaf_file))) /\
     (forall (c : content) (e : exn),
        files w3 !! wav_path_of self eaf_file = Some c -> from_wav c = inl e ->
        raised (build_dataset self w) = Some e) /\
     (forall (c : content) (audio : AudioSegment) (e : exn),
        files w3 !! wav_path_of self eaf_file = Some c -> from_wav c = inr audio ->
        getitem audio start_time end_time = inl e ->
        raised (build_dataset self w) = Some e) /\
     (forall (c : content) (audio segment : AudioSegment) (e : exn),
        files w3 !! wav_path_of self eaf_file = Some c -> from_wav c = inr audio ->
        getitem audio start_time end_time = inr segment ->
        export segment = inl e ->
        raised (build_dataset self w) = Some e)).
Proof.
  intros Hmk Hls Hi Hpre Hex.
  pose proof (build_Raise self w w0 listing i eaf_file data w1) as Hbuild.
  split; [|split].
  - intros Hnone. eapply Hbuild; try eassumption.
    apply per_file_Raise_parse; [exact Hex|].
    now apply parse_eaf_file_Raise_missing.
  - intros c e Hc He. eapply Hbuild; try eassumption.
    apply per_file_Raise_parse; [exact Hex|].
    now apply (parse_eaf_file_Raise_malformed _ _ c).
  - intros pre post start_time end_time text data2 w3 Hparse Hfree Hloop.
    assert (Hslice : forall e w4,
      slice_and_process_audio (wav_path_of self eaf_file)
        (seg_path_of (seg_folder_of self eaf_file) start_time end_time)
        start_time end_time w3 = Raise e w4 ->
      raised (build_dataset self w) = Some e).
    { intros e w4 Hs. eapply Hbuild; try eassumption.
      eapply per_file_Raise_slice; eassumption. }
    split; [exact Hslice|]. repeat split.
    + intros Hnone. eapply Hslice. now apply slice_Raise_missing.
    + intros c e Hc He. eapply Hslice. now apply (slice_Raise_decode _ _ _ _ _ c).
    + intros c audio e Hc Ha He. eapply Hslice.
      now apply (slice_Raise_slice _ _ _ _ _ c audio).
    + intros c audio segment e Hc Ha Hs He. eapply Hslice.
      now apply (slice_Raise_encode _ _ _ _ _ c audio segment).
Qed.

Lemma exceptions_abort_run_witness :
  raised (build_dataset Toy.builder Toy.bad_eaf)
  = Some (LibraryError "pympi" "not an annotation file") /\
  raised (build_dataset Toy.builder Toy.bad_wav)
  = Some (LibraryError "pydub" "not a recording").
Proof.
  split.
  - refine (proj1 (proj2 (exceptions_abort_run (L := Toy.libs) Toy.builder Toy.bad_eaf
              (final (os_makedirs (L := Toy.libs) "seg" Toy.bad_eaf))
              ["SPK-002-1.eaf"] 0 "SPK-002-1.eaf" [] _ _ _ _ _ _)) Toy.Junk _ _ _).
    + reflexivity.
    + vm_compute. reflexivity.
    + reflexivity.
    + reflexivity.
    + left. vm_compute. eauto.
    + vm_compute. reflexivity.
    + reflexivity.
  - refine (proj1 (proj2 (proj2 (proj2 (proj2 (exceptions_abort_run (L := Toy.libs)
              Toy.builder Toy.bad_wav
              (final (os_makedirs (L := Toy.libs) "seg" Toy.bad_wav))
              ["SPK-002-1.eaf"] 0 "SPK-002-1.eaf" [] _ _ _ _ _ _))
              [] [(10, 25, "world"); (25, 25, "")] 0 10 "hello" [] _ _ _ _)))
              Toy.Junk _ _ _).
    + reflexivity.
    + vm_compute. reflexivity.
    + reflexivity.
    + reflexivity.
    + left. vm_compute. eauto.
    + vm_compute. reflexivity.
    + vm_compute. reflexivity.
    + reflexivity.
    + vm_compute. reflexivity.
    + reflexivity.
Defined.

(** ** The end of [build_dataset] *)

Section Finalize.
Context `{L : Libs}.
Implicit Types (self : DatasetBuilder) (data : list (Segment float)) (w : world).

Lemma json_paths_differ (dir : string) :
  os_path_join dir "train.json" <> os_path_join dir "test.json".
Proof.
  unfold os_path_join. cbn [Str.startswith].
  rewrite !bool_decide_eq_false_2 by discriminate.
  destruct (bool_decide (dir = "") || Str.endswith "/" dir);
    intros H; apply (inj (String.append dir)) in H; discriminate H.
Qed.

Lemma print_run (line : string) w :
  exists w', print line w = Return () w' /\ same_fs w w'.
Proof. eexists. split; [reflexivity|]. split; reflexivity. Qed.

Lemma os_listdir_same_fs (p : string) w w1 (names : list string) :
  same_fs w w1 -> listdir (files w) (dirs w) p = inr names ->
  os_listdir p w1 = Return names w1.
Proof. intros [Hf Hd] H. unfold os_listdir. now rewrite Hf, Hd, H. Qed.

(** The diagnostics that open [finalize], when both directories can be
    listed. *)
Lemma finalize_listed self data w (wavs eafs : list string) :
  listdir (files w) (dirs w) (wav_dir self) = inr wavs ->
  listdir (files w) (dirs w) (eaf_dir self) = inr eafs ->
  exists w1, same_fs w w1 /\
    finalize self data w =
      (if bool_decide (List.length data = 0%nat) then
         print "Error: The dataset is empty. Please check your input directories and files.";;
         mret (Tuple None_ None_)
       else
         '(train_data, test_data) ← lift (train_test_split data (test_size self) 42);
         _write_json train_data (os_path_join (output_dir self) "train.json");;
         _write_json test_data (os_path_join (output_dir self) "test.json");;
         print ("Dataset has been written into " +:+ output_dir self);;
         mret None_) w1.
Proof.
  intros Hw He. unfold finalize.
  rewrite (bind_Return_l _ _ _ _ _ (os_listdir_same_fs _ w w _ (conj eq_refl eq_refl) Hw)).
  destruct (print_run ("wav folder size: " +:+ pretty (Z.of_nat (List.length wavs))) w)
    as (w1 & Hp1 & Hfs1).
  rewrite (bind_Return_l _ _ _ _ _ Hp1).
  rewrite (bind_Return_l _ _ _ _ _ (os_listdir_same_fs _ w w1 _ Hfs1 He)).
  destruct (print_run ("eaf folder size: " +:+ pretty (Z.of_nat (List.length eafs))) w1)
    as (w2 & Hp2 & Hfs2).
  rewrite (bind_Return_l _ _ _ _ _ Hp2).
  destruct (print_run ("Dataset size: " +:+ pretty (Z.of_nat (List.length data))) w2)
    as (w3 & Hp3 & Hfs3).
  rewrite (bind_Return_l _ _ _ _ _ Hp3).
  exists w3. split; [|reflexivity].
  destruct Hfs1 as [? ?], Hfs2 as [? ?], Hfs3 as [? ?]. split; congruence.
Qed.

(** What [finalize] has done when it returns. *)
Lemma finalize_Return self data w v w' :
  finalize self data w = Return v w' ->
  (data = [] /\ v = Tuple None_ None_ /\ files w' = files w) \/
  (data <> [] /\ v = None_ /\
   exists (train_data test_data : list (Segment float)) (c1 c2 : content),
     train_test_split data (test_size self) 42 = inr (train_data, test_data) /\
     json_dump train_data = inr c1 /\ json_dump test_data = inr c2 /\
     files w' !! os_path_join (output_dir self) "train.json" = Some c1 /\
     files w' !! os_path_join (output_dir self) "test.json" = Some c2).
Proof.
  unfold finalize. intros H.
  bind_inv H as wavs w1 Hw. unfold os_listdir in Hw. apply lift_Return in Hw as [Hw ->].
  bind_inv H as [] w1 Hp1. injection Hp1 as <-.
  bind_inv H as eafs w1 He. unfold os_listdir in He. apply lift_Return in He as [He ->].
  bind_inv H as [] w1 Hp2. injection Hp2 as <-.
  bind_inv H as [] w1 Hp3. injection Hp3 as <-.
  case_bool_decide as Hlen.
  - left. bind_inv H as [] w1 Hp4. injection Hp4 as <-. injection H as <- <-.
    split; [now destruct data|]. split; reflexivity.
  - right. split; [now intros ->|].
    bind_inv H as [train_data test_data] w1 Hsplit.
    apply lift_Return in Hsplit as [Hsplit ->].
    bind_inv H as [] w1 Htrain. unfold _write_json in Htrain.
    bind_inv Htrain as c1 w2 Hc1. apply lift_Return in Hc1 as [Hc1 ->].
    apply write_Return in Htrain as ->.
    bind_inv H as [] w1 Htest. unfold _write_json in Htest.
    bind_inv Htest as c2 w2 Hc2. apply lift_Return in Hc2 as [Hc2 ->].
    apply write_Return in Htest as ->.
    bind_inv H as [] w1 Hp4. injection Hp4 as <-. injection H as <- <-.
    split; [reflexivity|].
    exists train_data, test_data, c1, c2. cbn [files].
    repeat split; try assumption.
    + rewrite lookup_insert_ne by (apply not_eq_sym, json_paths_differ).
      apply lookup_insert_eq.
    + apply lookup_insert_eq.
Qed.

(** While no record is accumulated no file is written. *)
Lemma per_file_no_record self data idx eaf_file w data' w' :
  per_file self data (idx, eaf_file) w = Return data' w' ->
  data' = [] -> data = [] /\ files w' = files w.
Proof.
  intros H ->.
  apply per_file_Return in H as (w1 & [Hf1 _] & [(_ & Hyes) | (_ & <- & [Hf _])]);
    [|done].
  destruct Hyes as (annotations & w2 & w3 & _ & Hmk & Hloop & [Hf3 _]).
  apply os_makedirs_Return in Hmk as ->.
  pose proof (spans_Return _ _ _ _ _ _ _ _ Hloop) as (new & Hnew & _).
  symmetry in Hnew. apply app_eq_nil in Hnew as [-> ->].
  apply spans_nil_world in Hloop as [_ ->]; [|reflexivity].
  split; [reflexivity|]. now rewrite Hf3.
Qed.

Lemma accumulate_no_record self w w' :
  accumulate self w = Return [] w' -> files w' = files w.
Proof.
  unfold accumulate. intros H.
  bind_inv H as [] w0 Hmk. apply os_makedirs_Return in Hmk as ->.
  bind_inv H as listing w1 Hls. unfold os_listdir in Hls.
  apply lift_Return in Hls as [_ ->].
  refine (for_invariant (fun data wc => data = [] -> files wc = files w)
            _ _ _ _ _ _ _ _ H eq_refl); [|reflexivity].
  intros acc [idx eaf_file] wa acc' wb Hacc Hbody ->.
  apply per_file_no_record in Hbody as [-> ->]; [|reflexivity]. now apply Hacc.
Qed.

Lemma accumulate_Return self w data w1 (f : list (Segment float) -> M value) :
  accumulate self w = Return data w1 ->
  (accumulate self ≫= f) w = f data w1.
Proof. apply bind_Return_l. Qed.

End Finalize.

(** C2, as stated, fails: the diagnostics printed before the test for an
    empty dataset list [wav_dir].  With an annotation file and no directory of
    recordings no record is accumulated, and [build_dataset] raises. *)
Lemma empty_dataset_may_raise :
  returned (accumulate Toy.builder Toy.no_wav_dir) = Some [] /\
  raised (build_dataset Toy.builder Toy.no_wav_dir) = Some (FileNotFoundError "wav").
Proof. split; vm_compute; reflexivity. Qed.

(** C2, amended: when no record is accumulated and both [wav_dir] and
    [eaf_dir] can be listed afterwards, [build_dataset] returns
    [(None, None)] without raising, and leaves every file as it was; in
    particular it writes neither [train.json] nor [test.json]. *)
Theorem empty_dataset_soft_failure `{L : Libs} (self : DatasetBuilder) (w w1 : world)
    (wavs eafs : list string) :
  accumulate self w = Return [] w1 ->
  listdir (files w1) (dirs w1) (wav_dir self) = inr wavs ->
  listdir (files w1) (dirs w1) (eaf_dir self) = inr eafs ->
  returned (build_dataset self w) = Some (Tuple None_ None_) /\
  files (final (build_dataset self w)) = files w /\
  files (final (build_dataset self w)) !! os_path_join (output_dir self) "train.json"
  = files w !! os_path_join (output_dir self) "train.json" /\
  files (final (build_dataset self w)) !! os_path_join (output_dir self) "test.json"
  = files w !! os_path_join (output_dir self) "test.json".
Proof.
  intros Hacc Hw He.
  assert (Hfiles : files w1 = files w) by now apply accumulate_no_record in Hacc.
  unfold build_dataset. rewrite (accumulate_Return _ _ _ _ _ Hacc).
  destruct (finalize_listed self [] w1 wavs eafs Hw He) as (w2 & [Hf2 _] & ->).
  rewrite bool_decide_eq_true_2 by reflexivity.
  destruct (print_run
              "Error: The dataset is empty. Please check your input directories and files."
              w2) as (w3 & Hp & [Hf3 _]).
  rewrite (bind_Return_l _ _ _ _ _ Hp), mret_run. cbn [returned final].
  rewrite Hf3, Hf2, Hfiles. repeat split.
Qed.

Lemma empty_dataset_soft_failure_witness :
  returned (build_dataset Toy.builder Toy.empty_corpus) = Some (Tuple None_ None_) /\
  files (final (build_dataset Toy.builder Toy.empty_corpus)) = files Toy.empty_corpus.
Proof.
  assert (Hacc : accumulate (L := Toy.libs) Toy.builder Toy.empty_corpus
                 = Return [] (final (accumulate (L := Toy.libs) Toy.builder Toy.empty_corpus)))
    by (apply run_Return; vm_compute; reflexivity).
  destruct (empty_dataset_soft_failure Toy.builder Toy.empty_corpus _ [] [] Hacc)
    as (Hret & Hfiles & _); [vm_compute; reflexivity | vm_compute; reflexivity |].
  split; [exact Hret | exact Hfiles].
Defined.

(** C1, as stated, fails: with three records accumulated and both partitions
    written, [build_dataset] returns [None], not a pair of counts. *)
Lemma build_returns_no_counts :
  List.length <$> returned (accumulate Toy.builder Toy.corpus) = Some 3%nat /\
  returned (build_dataset Toy.builder Toy.corpus) = Some None_.
Proof. split; vm_compute; reflexivity. Qed.

(** C1, amended: a run of [build_dataset] that returns with at least one
    record accumulated has split the records, has written the train and the
    test partition to [train.json] and [test.json] under [output_dir], and
    returns [None]; it returns [(None, None)] exactly when no record was
    accumulated. *)
Theorem build_result `{L : Libs} (self : DatasetBuilder) (w w1 w2 : world)
    (data : list (Segment float)) (v : value) :
  accumulate self w = Return data w1 ->
  build_dataset self w = Return v w2 ->
  (data <> [] ->
   v = None_ /\
   exists (train_data test_data : list (Segment float)) (c1 c2 : content),
     train_test_split data (test_size self) 42 = inr (train_data, test_data) /\
     json_dump train_data = inr c1 /\ json_dump test_data = inr c2 /\
     files w2 !! os_path_join (output_dir self) "train.json" = Some c1 /\
     files w2 !! os_path_join (output_dir self) "test.json" = Some c2) /\
  (v = Tuple None_ None_ <-> data = []).
Proof.
  intros Hacc Hrun. unfold build_dataset in Hrun.
  rewrite (accumulate_Return _ _ _ _ _ Hacc) in Hrun.
  apply finalize_Return in Hrun as [(-> & -> & _) | (Hne & -> & Hwritten)].
  - split; [done|]. split; reflexivity.
  - split; [intros _; split; [reflexivity | exact Hwritten]|].
    split; [discriminate | done].
Qed.

Lemma build_result_witness :
  returned (build_dataset Toy.builder Toy.corpus) = Some None_ /\
  is_Some (files (final (build_dataset Toy.builder Toy.corpus)) !! "dataset/train.json") /\
  is_Some (files (final (build_dataset Toy.builder Toy.corpus)) !! "dataset/test.json").
Proof.
  destruct (run_total (accumulate (L := Toy.libs) Toy.builder Toy.corpus))
    as [data Hacc]; [vm_compute; reflexivity|].
  destruct (run_total (build_dataset (L := Toy.libs) Toy.builder Toy.corpus))
    as [v Hrun]; [vm_compute; reflexivity|].
  assert (Hne : data <> []).
  { intros ->. apply (f_equal returned) in Hacc. vm_compute in Hacc. discriminate Hacc. }
  destruct (build_result Toy.builder Toy.corpus _ _ data v Hacc Hrun) as [Hsome _].
  destruct (Hsome Hne) as (-> & train_data & test_data & c1 & c2 & _ & _ & _ & H1 & H2).
  split; [now rewrite Hrun|]. split; eexists; [exact H1 | exact H2].
Defined.

(** C9: [split] is stored and never read.  Two builders that differ in it
    only run alike from every state: same records, same result or exception,
    same files, same output. *)
Theorem split_is_ignored `{L : Libs} (eaf_dir wav_dir seg_dir output_dir : string)
    (test_size : float) (w : world) :
  accumulate (__init__ eaf_dir wav_dir seg_dir output_dir true test_size) w
  = accumulate (__init__ eaf_dir wav_dir seg_dir output_dir false test_size) w /\
  build_dataset (__init__ eaf_dir wav_dir seg_dir output_dir true test_size) w
  = build_dataset (__init__ eaf_dir wav_dir seg_dir output_dir false test_size) w.
Proof. split; reflexivity. Qed.

(** C4 fails on the code: the null identity is formatted into the file name
    ["None-None.wav"] and the file is skipped only if no such recording
    exists.  With that recording in [wav_dir], the annotation file
    ["notes.eaf"], whose identity is null, is parsed and a record with a
    null [conversation_id] is appended for its span. *)
Theorem unresolved_file_not_skipped :
  returned (_parse_root_id_and_session "notes.eaf" Toy.stray) = Some (None, None) /\
  (path <$> default [] (returned (accumulate Toy.builder Toy.stray)))
  = ["seg/notes/0-10.wav"] /\
  (transcription <$> default [] (returned (accumulate Toy.builder Toy.stray))) = ["hi"] /\
  (conversation_id <$> default [] (returned (accumulate Toy.builder Toy.stray))) = [None].
Proof. repeat split; vm_compute; reflexivity. Qed.

(** ** The partition

    The splitter is outside the repository; these are properties of its
    model [Sklearn.train_test_split]. *)

Module SklearnFacts.
Section Facts.
Context {A : Type}.
Implicit Types (data : list A) (idx : list nat).








End Facts.

Section Partition.
Context {A : Type} (permutation : Z -> nat -> list nat).
Hypothesis permutation_shuffles : forall seed n, permutation seed n ≡ₚ seq 0 n.


End Partition.
End SklearnFacts.





(** * Further properties of the code *)

(** ** What the builder touches *)

Section Frames.
Context `{L : Libs}.
Implicit Types (self : DatasetBuilder) (data : list (Segment float)) (w : world).

Lemma footprint_bind {A B} (S D : string -> Prop) (m : M A) (f : A -> M B) :
  footprint S D m -> (forall a, footprint S D (f a)) -> footprint S D (m ≫= f).
Proof.
  intros (Hw & Hk & Hm) Hf. repeat split.
  - intros w p Hp. specialize (Hw w p Hp). rewrite bind_run.
    destruct (m w) as [a w1|e w1]; [|exact Hw].
    destruct (Hf a) as (Hfw & _ & _). rewrite (Hfw w1 p Hp). exact Hw.
  - intros w. specialize (Hk w). rewrite bind_run.
    destruct (m w) as [a w1|e w1]; [|exact Hk].
    destruct (Hf a) as (_ & Hfk & _). etrans; [exact Hk | apply Hfk].
  - intros w p. specialize (Hm w p). rewrite bind_run.
    destruct (m w) as [a w1|e w1]; [|exact Hm].
    destruct (Hf a) as (_ & _ & Hfm). intros Hp.
    destruct (Hfm w1 p Hp) as [Hin | HD]; [now apply Hm | now right].
Qed.

Lemma footprint_mono {A} (S S' D D' : string -> Prop) (m : M A) :
  (forall p, S p -> S' p) -> (forall p, D p -> D' p) ->
  footprint S D m -> footprint S' D' m.
Proof.
  intros HS HD (Hw & Hk & Hm). repeat split.
  - intros w p Hp. apply Hw. intros H. apply Hp, HS, H.
  - exact Hk.
  - intros w p Hp. destruct (Hm w p Hp); [now left | right; now apply HD].
Qed.

(** A computation that leaves files and directories as they are. *)
Lemma footprint_same_fs {A} (S D : string -> Prop) (m : M A) :
  (forall w, same_fs w (final (m w))) -> footprint S D m.
Proof.
  intros H. repeat split.
  - intros w p _. now destruct (H w) as [-> _].
  - intros w. now destruct (H w) as [_ ->].
  - intros w p. destruct (H w) as [_ ->]. now left.
Qed.

Lemma footprint_mret {A} S D (a : A) : footprint S D (mret a : M A).
Proof. apply footprint_same_fs. intros w. split; reflexivity. Qed.

Lemma footprint_lift {A} S D (r : exn + A) : footprint S D (lift r).
Proof. apply footprint_same_fs. intros w. destruct r; split; reflexivity. Qed.

Lemma footprint_print S D (line : string) : footprint S D (print line).
Proof. apply footprint_same_fs. intros w. split; reflexivity. Qed.

Lemma footprint_read S D (p : string) : footprint S D (read p).
Proof.
  apply footprint_same_fs. intros w. unfold read.
  destruct (files w !! p); split; reflexivity.
Qed.

Lemma footprint_exists S D (p : string) : footprint S D (os_path_exists p).
Proof. apply footprint_same_fs. intros w. split; reflexivity. Qed.

Lemma footprint_listdir S D (p : string) : footprint S D (os_listdir p).
Proof.
  apply footprint_same_fs. intros w. unfold os_listdir.
  destruct (listdir (files w) (dirs w) p); split; reflexivity.
Qed.

Lemma footprint_write (S D : string -> Prop) (p : string) (c : content) :
  S p -> footprint S D (write p c).
Proof.
  intros HS. unfold write. repeat split.
  - intros w q Hq. destruct (open_w (files w) (dirs w) p); [reflexivity|].
    cbn [final files]. apply lookup_insert_ne. intros ->. contradiction.
  - intros w. now destruct (open_w (files w) (dirs w) p).
  - intros w q. destruct (open_w (files w) (dirs w) p); now left.
Qed.

Lemma footprint_remove (S D : string -> Prop) (p : string) :
  S p -> footprint S D (os_remove p).
Proof.
  intros HS. unfold os_remove. repeat split.
  - intros w q Hq. destruct (files w !! p); [|reflexivity].
    cbn [final files]. apply lookup_delete_ne. intros ->. contradiction.
  - intros w. now destruct (files w !! p).
  - intros w q. destruct (files w !! p); now left.
Qed.

Lemma footprint_makedirs (S D : string -> Prop) (p : string) :
  D p -> footprint S D (os_makedirs p).
Proof.
  intros HD. unfold os_makedirs. repeat split.
  - intros w q _. now destruct (files w !! p).
  - intros w. destruct (files w !! p); cbn [final dirs]; set_solver.
  - intros w q. destruct (files w !! p); cbn [final dirs]; [now left|].
    intros [Hq | ->%elem_of_singleton]%elem_of_union; [now left | now right].
Qed.

Lemma footprint_for {A B} (S D : string -> Prop) (xs : list A) (body : B -> A -> M B) :
  (forall acc x, footprint S D (body acc x)) ->
  forall acc, footprint S D (for_ xs body acc).
Proof.
  intros Hbody. induction xs as [|x xs IH]; intros acc; cbn [for_].
  - apply footprint_mret.
  - apply footprint_bind; [apply Hbody | exact IH].
Qed.

End Frames.

(** Takes a computation apart along its binds and branches. *)
Ltac footprint_steps :=
  repeat first
    [ apply footprint_mret | apply footprint_lift | apply footprint_print
    | apply footprint_read | apply footprint_exists | apply footprint_listdir
    | (apply footprint_bind; [|intros ?])
    | match goal with
      | |- footprint _ _ (if ?b then _ else _) => destruct b
      | |- footprint _ _ (match ?x with _ => _ end) => destruct x
      | |- footprint _ _ (let '(_, _) := ?x in _) => destruct x
      end ].

Section Footprints.
Context `{L : Libs}.
Implicit Types (self : DatasetBuilder) (data : list (Segment float)) (w : world).

Lemma slice_footprint (D : string -> Prop) wav_path seg_path start_time end_time :
  footprint (fun p => p = seg_path) D
    (slice_and_process_audio wav_path seg_path start_time end_time).
Proof.
  unfold slice_and_process_audio. footprint_steps;
    first [now apply footprint_write | now apply footprint_remove].
Qed.

Lemma resolver_footprint S D (filename : string) :
  footprint S D (_parse_root_id_and_session filename).
Proof. unfold _parse_root_id_and_session. footprint_steps. Qed.

Lemma parse_eaf_file_footprint S D (eaf_path : string) :
  footprint S D (parse_eaf_file eaf_path).
Proof. unfold parse_eaf_file. footprint_steps. Qed.

Lemma per_file_footprint self data (entry : nat * string) :
  footprint (segment_path self) (fun p => exists eaf_file, p = seg_folder_of self eaf_file)
    (per_file self data entry).
Proof.
  destruct entry as [idx eaf_file]. unfold per_file.
  apply footprint_bind; [apply resolver_footprint|]. intros [root_id session].
  footprint_steps.
  - apply footprint_makedirs. now exists eaf_file.
  - apply footprint_for. intros acc [[start_time end_time] text]. unfold per_span.
    apply footprint_bind; [|intros ?; apply footprint_mret].
    eapply footprint_mono; [| |apply (slice_footprint (fun _ => False))].
    + intros p ->. now exists eaf_file, start_time, end_time.
    + intros p [].
Qed.

Lemma accumulate_footprint self :
  footprint (segment_path self)
    (fun p => p = seg_dir self \/ exists eaf_file, p = seg_folder_of self eaf_file)
    (accumulate self).
Proof.
  unfold accumulate. footprint_steps.
  - apply footprint_makedirs. now left.
  - apply footprint_for. intros acc entry.
    eapply footprint_mono; [| |apply per_file_footprint]; [done | now right].
Qed.

Lemma build_footprint self :
  footprint
    (fun p => segment_path self p \/
              p = os_path_join (output_dir self) "train.json" \/
              p = os_path_join (output_dir self) "test.json")
    (fun p => p = seg_dir self \/ exists eaf_file, p = seg_folder_of self eaf_file)
    (build_dataset self).
Proof.
  unfold build_dataset. apply footprint_bind.
  - eapply footprint_mono; [| |apply accumulate_footprint]; [now left | done].
  - intros data. unfold finalize, _write_json. footprint_steps;
      apply footprint_write; auto.
Qed.

End Footprints.

(** ** Paths of segments *)

Section SegmentPaths.
Context `{L : Libs}.
Import StrFacts.

Lemma substring_skip (q s : string) (n : nat) :
  substring (String.length q) n (q +:+ s) = substring 0 n s.
Proof. induction q as [|c q IH]; simpl; [reflexivity | exact IH]. Qed.

Lemma has_suffix_app (q suffix : string) : has_suffix suffix (q +:+ suffix) = true.
Proof.
  unfold has_suffix. apply bool_decide_eq_true_2. rewrite length_app.
  replace (String.length q + String.length suffix - String.length suffix)%nat
    with (String.length q) by lia.
  rewrite substring_skip. apply substring_whole.
Qed.

Lemma os_path_join_suffix (a b : string) : exists pre, os_path_join a b = pre +:+ b.
Proof.
  unfold os_path_join. destruct (Str.startswith "/" b); [now exists ""|].
  destruct (bool_decide (a = "") || Str.endswith "/" a); [now exists a|].
  exists (a +:+ "/"). now rewrite app_assoc.
Qed.

(** Every segment is written under a name that ends in [.wav]. *)
Lemma segment_path_suffix (self : DatasetBuilder) (p : string) :
  segment_path self p -> has_suffix ".wav" p = true.
Proof.
  intros (eaf_file & start_time & end_time & ->). unfold seg_path_of.
  destruct (os_path_join_suffix (seg_folder_of self eaf_file)
              (pretty start_time +:+ "-" +:+ pretty end_time +:+ ".wav")) as [pre ->].
  rewrite <- !app_assoc. apply has_suffix_app.
Qed.

End SegmentPaths.

(** The slicer changes no file but the one at [seg_path], and no directory,
    whether it returns or raises: the recording it reads is left as it was. *)
Theorem slicer_touches_seg_path_only `{L : Libs} (wav_path seg_path : string)
    (start_time end_time : Z) (w : world) (p : string) :
  p <> seg_path ->
  files (final (slice_and_process_audio wav_path seg_path start_time end_time w)) !! p
  = files w !! p /\
  dirs (final (slice_and_process_audio wav_path seg_path start_time end_time w)) = dirs w.
Proof.
  intros Hp.
  destruct (slice_footprint (fun _ => False) wav_path seg_path start_time end_time)
    as (Hw & Hk & Hm).
  split; [now apply Hw|].
  apply set_eq. intros q. split; [|apply Hk].
  intros Hq. now destruct (Hm w q Hq).
Qed.

Lemma slicer_touches_seg_path_only_witness :
  files (final (slice_and_process_audio "wav/SPK-001-1.wav" "0-10.wav" 0 10 Toy.corpus))
    !! "wav/SPK-001-1.wav" = files Toy.corpus !! "wav/SPK-001-1.wav".
Proof.
  apply (slicer_touches_seg_path_only (L := Toy.libs)
           "wav/SPK-001-1.wav" "0-10.wav" 0 10 Toy.corpus "wav/SPK-001-1.wav").
  discriminate.
Defined.

(** [build_dataset] changes files only at segment paths
    [seg_dir/stem/start-end.wav] and at the two JSON outputs, whether it
    returns or raises. *)
Theorem build_writes_outputs_only `{L : Libs} (self : DatasetBuilder) (w : world)
    (p : string) :
  ~ segment_path self p ->
  p <> os_path_join (output_dir self) "train.json" ->
  p <> os_path_join (output_dir self) "test.json" ->
  files (final (build_dataset self w)) !! p = files w !! p.
Proof.
  intros Hseg Htrain Htest.
  destruct (build_footprint self) as (Hw & _ & _).
  apply Hw. intros [H | [H | H]]; contradiction.
Qed.

Lemma build_writes_outputs_only_witness :
  files (final (build_dataset Toy.builder Toy.corpus)) !! "wav/SPK-001-1.wave"
  = files Toy.corpus !! "wav/SPK-001-1.wave".
Proof.
  apply (build_writes_outputs_only (L := Toy.libs) Toy.builder Toy.corpus).
  - intros H. apply segment_path_suffix in H. vm_compute in H. discriminate H.
  - intros H. vm_compute in H. discriminate H.
  - intros H. vm_compute in H. discriminate H.
Defined.

(** [build_dataset] never changes a file whose path does not end in [.wav],
    the two JSON outputs apart: the annotation files are left as they were,
    whether it returns or raises. *)
Theorem build_keeps_other_files `{L : Libs} (self : DatasetBuilder) (w : world)
    (p : string) :
  has_suffix ".wav" p = false ->
  p <> os_path_join (output_dir self) "train.json" ->
  p <> os_path_join (output_dir self) "test.json" ->
  files (final (build_dataset self w)) !! p = files w !! p.
Proof.
  intros Hsuf Htrain Htest.
  destruct (build_footprint self) as (Hw & _ & _).
  apply Hw. intros [H | [H | H]]; [|contradiction..].
  apply segment_path_suffix in H. congruence.
Qed.

Lemma build_keeps_other_files_witness :
  files (final (build_dataset Toy.builder Toy.corpus)) !! "eaf/SPK-001-1.eaf"
  = Some Toy.spk_eaf.
Proof.
  etrans; [apply (build_keeps_other_files (L := Toy.libs) Toy.builder Toy.corpus)|].
  - vm_compute. reflexivity.
  - intros H. vm_compute in H. discriminate H.
  - intros H. vm_compute in H. discriminate H.
  - vm_compute. reflexivity.
Defined.

(** ** Entries that are skipped *)

Section Skipping.
Context `{L : Libs}.
Implicit Types (self : DatasetBuilder) (data : list (Segment float)) (w : world).

Lemma resolver_run_exact (filename : string) w :
  exists w', _parse_root_id_and_session filename w = Return (identity filename) w' /\
             files w' = files w /\ dirs w' = dirs w /\
             stdout w' = (stdout w ++ resolver_warning filename)%list.
Proof.
  unfold _parse_root_id_and_session, identity, resolver_warning.
  destruct (Re.match_ pattern filename IGNORECASE); eexists;
    (split; [reflexivity|]); cbn; repeat split; now rewrite ?app_nil_r.
Qed.

Lemma per_file_missing self data idx eaf_file w :
  ~ exists_ w (wav_path_of self eaf_file) ->
  exists w', per_file self data (idx, eaf_file) w = Return data w' /\
             files w' = files w /\ dirs w' = dirs w /\
             stdout w' = (stdout w ++ skipped_lines eaf_file idx)%list.
Proof.
  intros Hno. unfold per_file.
  destruct (resolver_run_exact eaf_file w) as (w1 & Hres & Hf & Hd & Hout).
  rewrite (bind_Return_l _ _ _ _ _ Hres).
  unfold skipped_lines, wav_filename_of, wav_path_of, progress_line in *.
  destruct (identity eaf_file) as [root_id session]. cbn [fst snd] in *.
  assert (Hno1 : ~ exists_ w1 (os_path_join (wav_dir self)
                                 (fmt root_id +:+ "-" +:+ fmt session +:+ ".wav")))
    by (unfold exists_ in *; now rewrite Hf, Hd).
  rewrite bind_run, os_path_exists_run, (bool_decide_eq_false_2 _ Hno1).
  rewrite bind_run, bind_run, print_exact, mret_run, bind_run.
  case_bool_decide.
  - rewrite print_exact, mret_run. eexists. split; [reflexivity|].
    cbn [files dirs stdout]. rewrite Hout, <- !app_assoc. done.
  - rewrite !mret_run. eexists. split; [reflexivity|].
    cbn [files dirs stdout]. rewrite Hout, app_nil_r, <- !app_assoc. done.
Qed.

(** A loop over entries that all lack their recording returns the records
    it started with. *)
Lemma all_missing_loop self (entries : list (nat * string)) :
  forall data w,
    (forall e, e ∈ entries -> ~ exists_ w (wav_path_of self e.2)) ->
    exists w', for_ entries (per_file self) data w = Return data w' /\ same_fs w w'.
Proof.
  induction entries as [|[idx eaf_file] entries IH]; intros data w Hall.
  - exists w. split; [reflexivity | split; reflexivity].
  - destruct (per_file_missing self data idx eaf_file w) as (w1 & Hrun & Hf & Hd & _).
    { apply (Hall (idx, eaf_file)). left. }
    destruct (IH data w1) as (w2 & Hrest & Hf2 & Hd2).
    { intros e He. unfold exists_. rewrite Hf, Hd. apply Hall. now right. }
    exists w2. cbn [for_]. rewrite (bind_Return_l _ _ _ _ _ Hrun).
    split; [exact Hrest|]. split; congruence.
Qed.

End Skipping.

(** An entry of [eaf_dir] whose recording does not exist is skipped without
    an exception: no record is appended, no file or directory changes, and
    the warnings (and the progress line of every tenth entry) are printed. *)
Theorem missing_recording_skipped `{L : Libs} (self : DatasetBuilder)
    (data : list (Segment float)) (idx : nat) (eaf_file : string) (w : world) :
  ~ exists_ w (wav_path_of self eaf_file) ->
  exists w' : world,
    per_file self data (idx, eaf_file) w = Return data w' /\
    files w' = files w /\ dirs w' = dirs w /\
    stdout w' = (stdout w ++ skipped_lines eaf_file idx)%list.
Proof. apply per_file_missing. Qed.

Lemma missing_recording_skipped_witness :
  exists w',
    per_file Toy.builder [] (9%nat, "SPK-001-1.eaf") Toy.no_wav_dir = Return [] w' /\
    stdout w' = ["Warning: Audio file 'SPK-001-1.wav' not found.";
                 "10 files built into dataset"].
Proof.
  destruct (missing_recording_skipped (L := Toy.libs) Toy.builder []
              9 "SPK-001-1.eaf" Toy.no_wav_dir) as (w' & Hrun & _ & _ & Hout).
  - intros [[c Hc] | Hd]; [vm_compute in Hc; discriminate Hc|].
    vm_compute in Hd. discriminate Hd.
  - exists w'. split; [exact Hrun|]. rewrite Hout. vm_compute. reflexivity.
Defined.

(** A file name with a null identity is skipped as long as [wav_dir] holds
    nothing named [None-None.wav]: no record, no change of files, and the
    two warnings. *)
Theorem unmatched_file_skipped `{L : Libs} (self : DatasetBuilder)
    (data : list (Segment float)) (idx : nat) (eaf_file : string) (w : world) :
  returned (_parse_root_id_and_session eaf_file w) = Some (None, None) ->
  ~ exists_ w (os_path_join (wav_dir self) "None-None.wav") ->
  exists w' : world,
    per_file self data (idx, eaf_file) w = Return data w' /\
    files w' = files w /\ dirs w' = dirs w /\
    stdout w' =
      (stdout w
       ++ ["Warning: " +:+ eaf_file +:+ " root id and session not found";
           "Warning: Audio file 'None-None.wav' not found."]
       ++ progress_line idx)%list.
Proof.
  rewrite resolver_returns. intros [= Hid] Hno.
  assert (Hm : Re.match_ pattern eaf_file IGNORECASE = None).
  { unfold identity in Hid. now destruct (Re.match_ pattern eaf_file IGNORECASE). }
  destruct (per_file_missing self data idx eaf_file w) as (w' & Hrun & Hf & Hd & Hout).
  { unfold wav_path_of. rewrite Hid. exact Hno. }
  exists w'. repeat split; try assumption.
  rewrite Hout. unfold skipped_lines, resolver_warning, wav_filename_of.
  rewrite Hm, Hid. reflexivity.
Qed.

Lemma unmatched_file_skipped_witness :
  exists w',
    per_file Toy.builder [] (0%nat, "notes.eaf") Toy.corpus = Return [] w' /\
    files w' = files Toy.corpus.
Proof.
  destruct (unmatched_file_skipped (L := Toy.libs) Toy.builder []
              0 "notes.eaf" Toy.corpus) as (w' & Hrun & Hf & _).
  - vm_compute. reflexivity.
  - intros [[c Hc] | Hd]; [vm_compute in Hc; discriminate Hc|].
    vm_compute in Hd. discriminate Hd.
  - exists w'. split; [exact Hrun | exact Hf].
Defined.

(** ** Runs that end early *)

Section EarlyEnds.
Context `{L : Libs}.
Implicit Types (self : DatasetBuilder) (data : list (Segment float)) (w : world).

Lemma elem_of_enumerate {A} (xs : list A) (e : nat * A) :
  e ∈ enumerate xs -> e.2 ∈ xs.
Proof.
  destruct e as [i x]. unfold enumerate, zip. intros H.
  apply elem_of_lookup_zip_with in H as (j & a & b & [= <- <-] & _ & Hb).
  now apply list_elem_of_lookup_2 in Hb.
Qed.

(** [accumulate] when no entry of [eaf_dir] has its recording. *)
Lemma accumulate_all_missing self w (listing : list string) :
  files w !! seg_dir self = None ->
  listdir (files w) (dirs w ∪ {[seg_dir self]}) (eaf_dir self) = inr listing ->
  (forall eaf_file, eaf_file ∈ listing ->
     files w !! wav_path_of self eaf_file = None /\
     wav_path_of self eaf_file ∉ dirs w ∪ {[seg_dir self]}) ->
  exists w1, accumulate self w = Return [] w1 /\
             files w1 = files w /\ dirs w1 = dirs w ∪ {[seg_dir self]}.
Proof.
  intros Hseg Hls Hall. unfold accumulate.
  rewrite (bind_Return_l _ _ _ _ _ (os_makedirs_run _ _ Hseg)).
  erewrite bind_Return_l;
    [|unfold os_listdir; cbn [files dirs]; rewrite Hls; reflexivity].
  edestruct (all_missing_loop self (enumerate listing) []) as (w1 & Hrun & Hf & Hd);
    [|exists w1; split; [exact Hrun | split; [exact Hf | exact Hd]]].
  intros e He. apply elem_of_enumerate in He. destruct (Hall _ He) as [Hnone Hnd].
  intros [[c Hc] | Hin]; cbn [files dirs] in *; [congruence | contradiction].
Qed.

End EarlyEnds.

(** When [seg_dir] is a directory already, both input directories can be
    listed and no entry of [eaf_dir] has its recording, [build_dataset]
    returns [(None, None)] without raising and changes no file and no
    directory. *)
Theorem no_recording_no_dataset `{L : Libs} (self : DatasetBuilder) (w : world)
    (listing wavs : list string) :
  seg_dir self <> "" ->
  seg_dir self ∈ dirs w ->
  files w !! seg_dir self = None ->
  listdir (files w) (dirs w) (eaf_dir self) = inr listing ->
  listdir (files w) (dirs w) (wav_dir self) = inr wavs ->
  (forall eaf_file : string,
     eaf_file ∈ listing -> ~ exists_ w (wav_path_of self eaf_file)) ->
  returned (build_dataset self w) = Some (Tuple None_ None_) /\
  files (final (build_dataset self w)) = files w /\
  dirs (final (build_dataset self w)) = dirs w.
Proof.
  intros _ Hdir Hseg Hls Hwav Hall.
  assert (Hsame : dirs w ∪ {[seg_dir self]} = dirs w)
    by (rewrite (comm_L (∪)); apply subseteq_union_1_L, singleton_subseteq_l, Hdir).
  destruct (accumulate_all_missing self w listing Hseg) as (w1 & Hacc & Hf & Hd).
  { now rewrite Hsame. }
  { intros f Hin. specialize (Hall f Hin). rewrite Hsame. split.
    - destruct (files w !! wav_path_of self f) eqn:E; [|reflexivity].
      exfalso. apply Hall. left. rewrite E. eauto.
    - intros H. apply Hall. right. exact H. }
  rewrite Hsame in Hd.
  unfold build_dataset. rewrite (accumulate_Return _ _ _ _ _ Hacc).
  rewrite <- Hf, <- Hd in Hls, Hwav.
  destruct (finalize_listed self [] w1 wavs listing Hwav Hls) as (w2 & [Hf2 Hd2] & ->).
  rewrite bool_decide_eq_true_2 by reflexivity.
  rewrite bind_run, print_exact, mret_run. cbn [returned final files dirs].
  split; [reflexivity|]. split; congruence.
Qed.

Lemma no_recording_no_dataset_witness :
  returned (build_dataset Toy.builder Toy.second_run) = Some (Tuple None_ None_) /\
  files (final (build_dataset Toy.builder Toy.second_run)) = files Toy.second_run /\
  dirs (final (build_dataset Toy.builder Toy.second_run)) = dirs Toy.second_run.
Proof.
  apply (no_recording_no_dataset (L := Toy.libs) Toy.builder Toy.second_run
           ["SPK-001-1.eaf"] ["spk-001-1.wav"]).
  - discriminate.
  - vm_compute. reflexivity.
  - vm_compute. reflexivity.
  - vm_compute. reflexivity.
  - vm_compute. reflexivity.
  - intros f ->%list_elem_of_singleton [[c Hc] | Hd].
    + vm_compute in Hc. discriminate Hc.
    + vm_compute in Hd. discriminate Hd.
Defined.

(** A slice that decodes to no sample: the slicer returns [None], prints one
    line, and the file at [seg_path] is removed, also when a file was there
    before the call. *)
Theorem empty_slice_removed `{L : Libs} (wav_path seg_path : string)
    (start_time end_time : Z) (w : world) (c c' : content)
    (audio segment : AudioSegment) (rate : Z) :
  files w !! wav_path = Some c ->
  from_wav c = inr audio ->
  getitem audio start_time end_time = inr segment ->
  export segment = inr c' ->
  open_w (files w) (dirs w) seg_path = None ->
  librosa_load c' = inr ([], rate) ->
  exists w' : world,
    slice_and_process_audio wav_path seg_path start_time end_time w = Return None w' /\
    files w' = delete seg_path (files w) /\
    dirs w' = dirs w /\
    stdout w' =
      (stdout w ++ ["Deleting " +:+ seg_path +:+ " due to zero-length input signal"])%list.
Proof.
  intros Hc Ha Hs He Ho Hl. unfold slice_and_process_audio.
  rewrite (bind_Return_l _ _ _ _ _ (read_run _ _ _ Hc)).
  rewrite Ha. cbn [lift]. rewrite (bind_Return_l _ _ _ _ _ (mret_run _ _)).
  rewrite Hs. cbn [lift]. rewrite (bind_Return_l _ _ _ _ _ (mret_run _ _)).
  rewrite He. cbn [lift]. rewrite (bind_Return_l _ _ _ _ _ (mret_run _ _)).
  rewrite (bind_Return_l _ _ _ _ _ (write_run _ _ _ Ho)).
  erewrite bind_Return_l; [|apply read_run; cbn [files]; apply lookup_insert_eq].
  rewrite Hl. cbn [lift]. rewrite (bind_Return_l _ _ _ _ _ (mret_run _ _)).
  rewrite bool_decide_eq_true_2 by reflexivity.
  rewrite bind_run, print_exact, bind_run. unfold os_remove. cbn [files dirs stdout].
  rewrite lookup_insert_eq, mret_run.
  eexists. split; [reflexivity|]. cbn [files dirs stdout].
  split; [apply delete_insert_eq | split; reflexivity].
Qed.

Lemma empty_slice_removed_witness :
  exists w',
    slice_and_process_audio "wav/SPK-001-1.wav" "wav/SPK-001-1.wav" 25 25 Toy.corpus
    = Return None w' /\
    files w' !! "wav/SPK-001-1.wav" = None.
Proof.
  destruct (empty_slice_removed (L := Toy.libs) "wav/SPK-001-1.wav" "wav/SPK-001-1.wav"
              25 25 Toy.corpus (Toy.WavFile 1000 (Toy.ramp 30)) (Toy.WavFile 1000 [])
              (1000, Toy.ramp 30) (1000, []) 1000) as (w' & Hrun & Hf & _).
  - vm_compute. reflexivity.
  - reflexivity.
  - vm_compute. reflexivity.
  - reflexivity.
  - vm_compute. reflexivity.
  - reflexivity.
  - exists w'. split; [exact Hrun|]. rewrite Hf. apply lookup_delete_eq.
Defined.

(** Before the loop: when [seg_dir] names a file, [build_dataset] raises
    [FileExistsError] and changes nothing; when [seg_dir] is a directory
    already and [eaf_dir] cannot be listed, it raises the exception of the
    listing and changes no file and no directory. *)
Theorem build_fails_before_loop `{L : Libs} (self : DatasetBuilder) (w : world) :
  (is_Some (files w !! seg_dir self) ->
   build_dataset self w = Raise (FileExistsError (seg_dir self)) w) /\
  (forall e : exn,
     seg_dir self <> "" ->
     seg_dir self ∈ dirs w ->
     files w !! seg_dir self = None ->
     listdir (files w) (dirs w) (eaf_dir self) = inl e ->
     raised (build_dataset self w) = Some e /\
     files (final (build_dataset self w)) = files w /\
     dirs (final (build_dataset self w)) = dirs w).
Proof.
  split.
  - intros [c Hc]. unfold build_dataset, accumulate, os_makedirs.
    now rewrite !bind_run, Hc.
  - intros e _ Hdir Hseg Hls. unfold build_dataset, accumulate.
    assert (Hsame : dirs w ∪ {[seg_dir self]} = dirs w)
    by (rewrite (comm_L (∪)); apply subseteq_union_1_L, singleton_subseteq_l, Hdir).
    rewrite bind_run, (bind_Return_l _ _ _ _ _ (os_makedirs_run _ _ Hseg)).
    rewrite bind_run. unfold os_listdir. cbn [files dirs]. rewrite Hsame, Hls.
    cbn [lift raise raised final files dirs]. repeat split.
Qed.

Lemma build_fails_before_loop_witness :
  raised (build_dataset Toy.builder Toy.second_run_no_eaf_dir)
  = Some (FileNotFoundError "eaf") /\
  files (final (build_dataset Toy.builder Toy.second_run_no_eaf_dir))
  = files Toy.second_run_no_eaf_dir /\
  dirs (final (build_dataset Toy.builder Toy.second_run_no_eaf_dir))
  = dirs Toy.second_run_no_eaf_dir.
Proof.
  destruct (build_fails_before_loop (L := Toy.libs) Toy.builder Toy.second_run_no_eaf_dir)
    as [_ H].
  apply (H (FileNotFoundError "eaf")).
  - discriminate.
  - vm_compute. reflexivity.
  - vm_compute. reflexivity.
  - vm_compute. reflexivity.
Defined.

(** ** Failures after the loop *)

(** When the splitter raises on the accumulated records, [build_dataset]
    raises the same exception and writes neither JSON file: the files are
    those the loop left. *)
Theorem split_failure_writes_nothing `{L : Libs} (self : DatasetBuilder)
    (w w1 : world) (data : list (Segment float)) (wavs eafs : list string) (e : exn) :
  accumulate self w = Return data w1 ->
  data <> [] ->
  listdir (files w1) (dirs w1) (wav_dir self) = inr wavs ->
  listdir (files w1) (dirs w1) (eaf_dir self) = inr eafs ->
  train_test_split data (test_size self) 42 = inl e ->
  raised (build_dataset self w) = Some e /\
  files (final (build_dataset self w)) = files w1 /\
  dirs (final (build_dataset self w)) = dirs w1.
Proof.
  intros Hacc Hne Hwav Heaf Hsplit.
  unfold build_dataset. rewrite (accumulate_Return _ _ _ _ _ Hacc).
  destruct (finalize_listed self data w1 wavs eafs Hwav Heaf) as (w2 & [Hf Hd] & ->).
  rewrite bool_decide_eq_false_2 by (now destruct data).
  rewrite bind_run, Hsplit. split; [reflexivity | split; [exact Hf | exact Hd]].
Qed.

Lemma split_failure_writes_nothing_witness :
  raised (build_dataset Toy.builder Toy.stray)
  = Some (LibraryError "sklearn" "the resulting train set will be empty") /\
  files (final (build_dataset Toy.builder Toy.stray)) !! "dataset/train.json" = None.
Proof.
  assert (Hacc : accumulate (L := Toy.libs) Toy.builder Toy.stray
                 = Return (default [] (returned (accumulate (L := Toy.libs)
                                                   Toy.builder Toy.stray)))
                     (final (accumulate (L := Toy.libs) Toy.builder Toy.stray)))
    by (apply run_Return; vm_compute; reflexivity).
  destruct (split_failure_writes_nothing Toy.builder Toy.stray _ _
              ["None-None.wav"] ["notes.eaf"]
              (LibraryError "sklearn" "the resulting train set will be empty") Hacc)
    as (Hraise & Hf & _).
  - intros H. vm_compute in H. discriminate H.
  - vm_compute. reflexivity.
  - vm_compute. reflexivity.
  - vm_compute. reflexivity.
  - split; [exact Hraise|]. rewrite Hf. vm_compute. reflexivity.
Defined.

(** [build_dataset] does not create [output_dir]: when [train.json] cannot
    be opened for writing, it raises after the whole loop has run, and
    writes neither JSON file. *)
Theorem unwritable_output_raises `{L : Libs} (self : DatasetBuilder)
    (w w1 : world) (data train_data test_data : list (Segment float))
    (wavs eafs : list string) (c1 : content) (e : exn) :
  accumulate self w = Return data w1 ->
  data <> [] ->
  listdir (files w1) (dirs w1) (wav_dir self) = inr wavs ->
  listdir (files w1) (dirs w1) (eaf_dir self) = inr eafs ->
  train_test_split data (test_size self) 42 = inr (train_data, test_data) ->
  json_dump train_data = inr c1 ->
  open_w (files w1) (dirs w1) (os_path_join (output_dir self) "train.json") = Some e ->
  raised (build_dataset self w) = Some e /\
  files (final (build_dataset self w)) = files w1.
Proof.
  intros Hacc Hne Hwav Heaf Hsplit Hdump Hopen.
  unfold build_dataset. rewrite (accumulate_Return _ _ _ _ _ Hacc).
  destruct (finalize_listed self data w1 wavs eafs Hwav Heaf) as (w2 & [Hf Hd] & ->).
  rewrite bool_decide_eq_false_2 by (now destruct data).
  rewrite bind_run, Hsplit. cbn [lift]. rewrite mret_run.
  assert (Hw : _write_json train_data (os_path_join (output_dir self) "train.json") w2
               = Raise e w2).
  { unfold _write_json. rewrite bind_run, Hdump. cbn [lift]. rewrite mret_run.
    unfold write. now rewrite Hf, Hd, Hopen. }
  rewrite bind_run, Hw. split; [reflexivity | exact Hf].
Qed.

Lemma unwritable_output_raises_witness :
  raised (build_dataset Toy.builder Toy.no_output_dir)
  = Some (FileNotFoundError "dataset/train.json").
Proof.
  assert (Hacc : accumulate (L := Toy.libs) Toy.builder Toy.no_output_dir
                 = Return Toy.corpus_data
                     (final (accumulate (L := Toy.libs) Toy.builder Toy.no_output_dir)))
    by (apply run_Return; vm_compute; reflexivity).
  refine (proj1 (unwritable_output_raises Toy.builder Toy.no_output_dir _ _
                   (take 2 Toy.corpus_data) (drop 2 Toy.corpus_data)
                   ["SPK-001-1.wav"] ["SPK-001-1.eaf"]
                   (Toy.JsonFile (take 2 Toy.corpus_data))
                   (FileNotFoundError "dataset/train.json") Hacc _ _ _ _ _ _)).
  - intros H. vm_compute in H. discriminate H.
  - vm_compute. reflexivity.
  - vm_compute. reflexivity.
  - vm_compute. reflexivity.
  - reflexivity.
  - vm_compute. reflexivity.
Defined.

(** ** The Annotation Extractor *)

(** The extractor only reads: it leaves the machine as it is, whether it
    returns or raises.  What it returns is the annotation data of the tiers
    of linguistic type "verbatim", tier after tier, in the order the library
    gives them. *)
Theorem extractor_reads_only `{L : Libs} (eaf_path : string) (w : world) :
  final (parse_eaf_file eaf_path w) = w /\
  (forall annotations : list (Z * Z * string),
     returned (parse_eaf_file eaf_path w) = Some annotations ->
     exists (c : content) (eaf : Eaf),
       files w !! eaf_path = Some c /\ Elan_Eaf c = inr eaf /\
       annotations =
         List.concat (get_annotation_data_for_tier eaf
                        <$> get_tier_ids_for_linguistic_type eaf "verbatim")).
Proof.
  split.
  - unfold parse_eaf_file, read. rewrite bind_run.
    destruct (files w !! eaf_path) as [c|]; [|reflexivity].
    rewrite bind_run. now destruct (Elan_Eaf c).
  - intros annotations Hret. apply run_Return in Hret.
    apply parse_eaf_file_Return in Hret as (_ & c & eaf & Hc & He & ->).
    exists c, eaf. repeat split; try assumption.
    induction (get_tier_ids_for_linguistic_type eaf "verbatim") as [|t ts IH];
      [reflexivity|].
    cbn [flat_map]. rewrite fmap_cons, List.concat_cons, IH. reflexivity.
Qed.

Lemma extractor_reads_only_witness :
  returned (parse_eaf_file "eaf/SPK-001-1.eaf" Toy.corpus)
  = Some [(0, 10, "hello"); (10, 25, "world"); (25, 25, "")].
Proof.
  destruct (extractor_reads_only (L := Toy.libs) "eaf/SPK-001-1.eaf" Toy.corpus)
    as [_ H].
  destruct (H [(0, 10, "hello"); (10, 25, "world"); (25, 25, "")])
    as (c & eaf & Hc & He & Ha); [vm_compute; reflexivity|].
  vm_compute. reflexivity.
Defined.

(** ** Where the records come from *)

Section Provenance.
Context `{L : Libs}.
Implicit Types (self : DatasetBuilder) (data : list (Segment float)) (w : world).

Lemma for_invariant_mem {A B} (P : B -> Prop) (xs : list A) (body : B -> A -> M B) :
  (forall acc x w acc' w',
     x ∈ xs -> P acc -> body acc x w = Return acc' w' -> P acc') ->
  forall acc w acc' w', P acc -> for_ xs body acc w = Return acc' w' -> P acc'.
Proof.
  induction xs as [|x xs IH]; intros Hbody acc w acc' w' HP Hrun.
  - now injection Hrun as <- _.
  - cbn [for_] in Hrun. bind_inv Hrun as acc1 w1 Hx.
    eapply IH; [| |exact Hrun].
    + intros ? ? ? ? ? Hin. apply Hbody. now right.
    + eapply Hbody; [left | exact HP | exact Hx].
Qed.

Lemma records_of_file self (eaf_file : string) (annotations : list (Z * Z * string))
    (new : list (Segment float)) :
  Forall2 (record_of (seg_folder_of self eaf_file) (identity eaf_file).1) annotations new ->
  Forall (fun r => exists start_time end_time,
            path r = seg_path_of (seg_folder_of self eaf_file) start_time end_time /\
            duration r = end_time - start_time /\
            conversation_id r = (identity eaf_file).1 /\
            sampling_rate r = 16000) new.
Proof.
  induction 1 as [|[[start_time end_time] text] r annotations new Hr _ IH];
    constructor; [|exact IH].
  destruct Hr as (Hp & _ & Hrate & Hd & Hc). now exists start_time, end_time.
Qed.

End Provenance.

(** Every record of the dataset comes from an entry of the listing of
    [eaf_dir]: its path is [seg_dir/stem/start-end.wav] for the stem of that
    entry, its [conversation_id] is the root id resolved from that entry, and
    its duration is the length of the span named in its path. *)
Theorem records_come_from_listing `{L : Libs} (self : DatasetBuilder) (w w' : world)
    (data : list (Segment float)) :
  accumulate self w = Return data w' ->
  exists listing : list string,
    listdir (files w) (dirs w ∪ {[seg_dir self]}) (eaf_dir self) = inr listing /\
    Forall
      (fun r =>
         exists (eaf_file : string) (start_time end_time : Z),
           eaf_file ∈ listing /\
           path r =
             os_path_join (os_path_join (seg_dir self) (os_path_splitext eaf_file).1)
               (pretty start_time +:+ "-" +:+ pretty end_time +:+ ".wav") /\
           duration r = end_time - start_time /\
           conversation_id r = (identity eaf_file).1)
      data.
Proof.
  unfold accumulate. intros H.
  bind_inv H as [] w0 Hmk. apply os_makedirs_Return in Hmk as ->.
  bind_inv H as listing w1 Hls. unfold os_listdir in Hls.
  apply lift_Return in Hls as [Hls ->]. cbn [files dirs] in Hls.
  exists listing. split; [exact Hls|].
  revert H. apply for_invariant_mem; [|constructor].
  intros acc [idx eaf_file] wa acc' wb Hin Hacc Hbody.
  apply elem_of_enumerate in Hin. cbn [snd] in Hin.
  apply per_file_Return in Hbody as (w2 & _ & [(_ & Hyes) | (_ & -> & _)]); [|exact Hacc].
  destruct Hyes as (annotations & w3 & w4 & _ & _ & Hloop & _).
  apply spans_Return in Hloop as (new & -> & Hnew).
  apply Forall_app. split; [exact Hacc|].
  apply records_of_file in Hnew. eapply Forall_impl; [exact Hnew|].
  intros r (start_time & end_time & Hp & Hd & Hc & _).
  now exists eaf_file, start_time, end_time.
Qed.

Lemma records_come_from_listing_witness :
  Forall (fun r => conversation_id r = Some "SPK-001") Toy.corpus_data.
Proof.
  assert (Hacc : accumulate (L := Toy.libs) Toy.builder Toy.corpus
                 = Return Toy.corpus_data
                     (final (accumulate (L := Toy.libs) Toy.builder Toy.corpus)))
    by (apply run_Return; vm_compute; reflexivity).
  destruct (records_come_from_listing Toy.builder Toy.corpus _ _ Hacc)
    as (listing & Hls & Hall).
  vm_compute in Hls. injection Hls as <-.
  eapply Forall_impl; [exact Hall|].
  intros r (eaf_file & start_time & end_time & Hin & _ & _ & Hc).
  apply list_elem_of_singleton in Hin as ->.
  etrans; [exact Hc|]. vm_compute. reflexivity.
Defined.

(** ** The folder of a well-named annotation file *)

Module SplitextFacts.
Import Str StrFacts.

Lemma rfind_absent (c : ascii) (s : string) :
  all (is_not c) s = true -> rfind c s = -1.
Proof.
  induction s as [|x s IH]; cbn [all rfind]; [reflexivity|].
  intros H. apply andb_prop in H as [Hx Hs]. rewrite (IH Hs). cbn.
  unfold is_not in Hx. apply negb_true_iff in Hx. now rewrite Hx.
Qed.

Lemma rfind_app_r (c : ascii) (a b : string) :
  0 <= rfind c b -> rfind c (a +:+ b) = Z.of_nat (String.length a) + rfind c b.
Proof.
  intros Hb. induction a as [|x a IH]; cbn [String.append rfind String.length].
  - lia.
  - rewrite IH. destruct (0 <=? Z.of_nat (String.length a) + rfind c b) eqn:E; lia.
Qed.

(** The bytes that spell a character hold the ASCII byte [c] only when the
    character is [c]. *)
Lemma spelled_is_not (c : ascii) (x : N * string) :
  (code c < 128)%N -> spelled x -> x.1 <> code c -> all (is_not c) x.2 = true.
Proof.
  intros Hc [[Hx ->] | (Hx & _ & Hall)] Hne.
  - cbn [all]. rewrite andb_true_r. unfold is_not.
    apply negb_true_iff, bool_decide_eq_false_2. intros <-. apply Hne.
    unfold code. rewrite N_ascii_embedding; [reflexivity | lia].
  - apply (all_impl high); [|exact Hall]. intros b Hb. unfold is_not, high in *.
    apply negb_true_iff, bool_decide_eq_false_2. intros ->.
    apply N.leb_le in Hb. lia.
Qed.

Lemma text_is_not (c : ascii) (xs : list (N * string)) :
  (code c < 128)%N -> Forall spelled xs -> Forall (fun x => x.1 <> code c) xs ->
  all (is_not c) (text xs) = true.
Proof.
  intros Hc Hsp Hne. induction Hsp as [|x xs Hx _ IH]; [reflexivity|].
  apply Forall_cons in Hne as [Hne1 Hne].
  cbn [text foldr]. fold (text xs). rewrite all_app, (IH Hne).
  now rewrite (spelled_is_not c x Hc Hx Hne1).
Qed.

(** An ASCII character is spelled by its byte. *)
Lemma spelled_ascii (x : N * string) (a : ascii) :
  spelled x -> x.1 = code a -> (code a < 128)%N -> x.2 = String a "".
Proof.
  destruct x as [n t]. unfold spelled. cbn [fst snd]. intros Hx -> Ha.
  destruct Hx as [[_ ->] | (Hx & _)]; [|lia].
  unfold code. now rewrite ascii_N_embedding.
Qed.

Section Shape.
Context `{L : Libs}.

(** Neither set of the pattern holds the dot or the slash. *)
Lemma alpha_is_not (c : ascii) (n : N) :
  Re.in_set true is_alpha (code c) = false ->
  Re.in_set true is_alpha n = true -> n <> code c.
Proof. intros Hc Hn ->. congruence. Qed.

Lemma decimal_is_not (c : ascii) (n : N) :
  Re.in_set true is_decimal (code c) = false ->
  Re.in_set true is_decimal n = true -> n <> code c.
Proof. intros Hc Hn ->. congruence. Qed.

(** The part of a well-named file before its extension holds neither a dot
    nor a slash. *)
Lemma stem_is_not (c : ascii) (letters digits : list Re.char) (dash1 dash2 d : Re.char) :
  (code c < 128)%N -> code c <> 45%N ->
  Re.in_set true is_alpha (code c) = false ->
  Re.in_set true is_decimal (code c) = false ->
  Forall spelled (letters ++ dash1 :: digits ++ [dash2; d]) ->
  Forall (fun x => Re.in_set true is_alpha x.1 = true) letters ->
  Forall (fun x => Re.in_set true is_decimal x.1 = true) digits ->
  Re.lit_eq true "-" dash1.1 = true -> Re.lit_eq true "-" dash2.1 = true ->
  Re.in_set true is_decimal d.1 = true ->
  all (is_not c) (text (letters ++ dash1 :: digits ++ [dash2; d])) = true.
Proof.
  intros Hc Hdash Ha Hd Hsp Hl Hds Hd1 Hd2 Hdd.
  rewrite ReFacts.lit_dash in Hd1, Hd2.
  apply N.eqb_eq in Hd1, Hd2.
  apply text_is_not; [exact Hc | exact Hsp|].
  apply Forall_app. split.
  - eapply Forall_impl; [exact Hl|]. intros x. now apply alpha_is_not.
  - apply Forall_cons. split; [congruence|].
    apply Forall_app. split.
    + eapply Forall_impl; [exact Hds|]. intros x. now apply decimal_is_not.
    + repeat constructor; [congruence | now apply decimal_is_not].
Qed.

(** A letter of the extension is spelled in lower or in upper case. *)
Lemma ext_letter (a : ascii) (x : Re.char) :
  in_range 97 122 (code a) = true ->
  (code a =? 105)%N || (code a =? 115)%N || (code a =? 107)%N = false ->
  spelled x -> Re.lit_eq true a x.1 = true ->
  x.2 = String a "" \/ x.2 = String (ascii_of_N (code a - 32)) "".
Proof.
  intros Ha Hisk Hx Hlit. rewrite (ReFacts.lit_letter a x.1 Ha Hisk) in Hlit.
  unfold in_range in Ha. apply andb_prop in Ha as [Ha1 Ha2].
  apply N.leb_le in Ha1, Ha2.
  apply orb_prop in Hlit as [Hlit | Hlit]; apply N.eqb_eq in Hlit.
  - left. apply spelled_ascii; [exact Hx | exact Hlit | lia].
  - right. destruct Hx as [[_ ->] | (Hx & _)]; [now rewrite Hlit | lia].
Qed.

Lemma splitext_shape (f g1 g2 : string) :
  identity_shape (chars f) g1 g2 -> (os_path_splitext f).1 = g1 +:+ "-" +:+ g2.
Proof.
  intros (letters & digits & dash1 & dash2 & d & e1 & e2 & e3 & e4
          & Hf & Hl & Hal & Hd & Had & Hd1 & Hd2 & Hdd & He1 & He2 & He3 & He4 & -> & ->).
  pose proof (text_chars f) as Ht. pose proof (chars_spelled f) as Hsp.
  rewrite Hf in Ht, Hsp.
  replace (letters ++ dash1 :: digits ++ [dash2; d; e1; e2; e3; e4])%list
    with ((letters ++ dash1 :: digits ++ [dash2; d]) ++ [e1; e2; e3; e4])%list in Ht, Hsp
    by (rewrite <- !List.app_assoc; cbn [app]; rewrite <- !List.app_assoc; reflexivity).
  apply Forall_app in Hsp as [Hstem Hext].
  apply Forall_cons in Hext as [Hs1 Hext]. apply Forall_cons in Hext as [Hs2 Hext].
  apply Forall_cons in Hext as [Hs3 Hext]. apply Forall_cons in Hext as [Hs4 _].
  rewrite text_app in Ht.
  set (stem := text (letters ++ dash1 :: digits ++ [dash2; d])) in *.
  set (ext := text [e1; e2; e3; e4]) in *.
  assert (Hdash2 : dash2.2 = "-").
  { rewrite ReFacts.lit_dash in Hd2. apply N.eqb_eq in Hd2.
    apply Forall_app in Hstem as [_ Hstem]. apply Forall_cons in Hstem as [_ Hstem].
    apply Forall_app in Hstem as [_ Hstem]. apply Forall_cons in Hstem as [Hstem _].
    apply (spelled_ascii dash2 "-" Hstem Hd2). reflexivity. }
  assert (Hg : text (letters ++ dash1 :: digits) +:+ "-" +:+ d.2 = stem).
  { unfold stem.
    replace (letters ++ dash1 :: digits ++ [dash2; d])%list
      with ((letters ++ dash1 :: digits) ++ [dash2; d])%list
      by (rewrite <- !List.app_assoc; reflexivity).
    rewrite (text_app (letters ++ dash1 :: digits) [dash2; d]).
    change (text [dash2; d]) with (dash2.2 +:+ (d.2 +:+ "")).
    now rewrite Hdash2, app_nil_r. }
  rewrite Hg, <- Ht.
  assert (He1' : e1.2 = ".").
  { rewrite ReFacts.lit_dot in He1. apply N.eqb_eq in He1.
    apply (spelled_ascii e1 "." Hs1 He1). reflexivity. }
  assert (Hext_eq : exists x2 x3 x4 : ascii,
             ext = String "." (String x2 (String x3 (String x4 ""))) /\
             (x2 = "e" \/ x2 = "E")%char /\ (x3 = "a" \/ x3 = "A")%char /\
             (x4 = "f" \/ x4 = "F")%char).
  { unfold ext. cbn [text foldr]. rewrite He1'.
    destruct (ext_letter "e" e2 eq_refl eq_refl Hs2 He2) as [-> | ->];
      destruct (ext_letter "a" e3 eq_refl eq_refl Hs3 He3) as [-> | ->];
      destruct (ext_letter "f" e4 eq_refl eq_refl Hs4 He4) as [-> | ->];
      eexists _, _, _; (split; [reflexivity|]); repeat split; auto. }
  destruct Hext_eq as (x2 & x3 & x4 & Hext_eq & Hx2 & Hx3 & Hx4).
  assert (Hext_dot : rfind "." ext = 0).
  { rewrite Hext_eq. destruct Hx2 as [-> | ->], Hx3 as [-> | ->], Hx4 as [-> | ->];
      reflexivity. }
  assert (Hext_sep : all (is_not "/") ext = true).
  { rewrite Hext_eq. destruct Hx2 as [-> | ->], Hx3 as [-> | ->], Hx4 as [-> | ->];
      reflexivity. }
  assert (Hstem_sep : all (is_not "/") stem = true).
  { apply stem_is_not; try assumption; try reflexivity; discriminate. }
  assert (Hstem_dot : all (is_not ".") stem = true).
  { apply stem_is_not; try assumption; try reflexivity; discriminate. }
  assert (Hsep : rfind "/" (stem +:+ ext) = -1).
  { apply rfind_absent. now rewrite all_app, Hstem_sep, Hext_sep. }
  assert (Hdot : rfind "." (stem +:+ ext) = Z.of_nat (String.length stem)).
  { rewrite rfind_app_r; rewrite Hext_dot; lia. }
  assert (Hlen : (1 <= String.length stem)%nat).
  { unfold stem. destruct letters as [|l letters]; [done|].
    apply Forall_cons in Hstem as [Hl1 _]. apply spelled_nonempty in Hl1.
    cbn [app text foldr]. rewrite length_app. lia. }
  unfold os_path_splitext. rewrite Hsep, Hdot.
  replace (-1 <? Z.of_nat (String.length stem)) with true by (symmetry; apply Z.ltb_lt; lia).
  replace (Z.to_nat (Z.of_nat (String.length stem) - (-1 + 1)))
    with (S (Nat.pred (String.length stem))) by lia.
  cbn [splitext_loop].
  rewrite bool_decide_eq_true_2.
  - cbn [default fst]. unfold take. rewrite Nat2Z.id. apply substring_prefix.
  - unfold at_. destruct stem as [|b stem']; [cbn in Hlen; lia|].
    cbn [String.append Z.to_nat Z.add substring]. cbn [all] in Hstem_dot.
    apply andb_prop in Hstem_dot as [Hb _]. intros [= ->]. discriminate Hb.
Qed.

End Shape.
End SplitextFacts.

(** For a file name that matches the pattern as a whole, the stem is the
    two groups joined by a hyphen, in the case of the file name: the
    segments of [ABC-123-4.eaf] go to the folder [ABC-123-4] of [seg_dir]. *)
Theorem well_named_segment_folder `{L : Libs} (self : DatasetBuilder)
    (eaf_file : string) (m : Re.match_object) :
  Re.fullmatch pattern eaf_file IGNORECASE = Some m ->
  (os_path_splitext eaf_file).1 = Re.group m 1 +:+ "-" +:+ Re.group m 2 /\
  seg_folder_of self eaf_file
  = os_path_join (seg_dir self) (Re.group m 1 +:+ "-" +:+ Re.group m 2).
Proof.
  intros Hm. apply ReFacts.fullmatch_iff in Hm as (g1 & g2 & Hs & ->).
  rewrite ReFacts.group_1, ReFacts.group_2.
  apply SplitextFacts.splitext_shape in Hs.
  unfold seg_folder_of. rewrite Hs. split; reflexivity.
Qed.

Lemma well_named_segment_folder_witness :
  seg_folder_of Toy.builder "abc-123-4.EAF" = "seg/abc-123-4".
Proof.
  destruct (well_named_segment_folder (L := Toy.libs) Toy.builder "abc-123-4.EAF"
              (<[2%nat := "4"]> (<[1%nat := "abc-123"]> ∅))) as [_ H];
    [vm_compute; reflexivity|].
  rewrite H. vm_compute. reflexivity.
Defined.
